(** * Brazilian Roulette Assistant: the browser client, embedded in Rocq

    The development follows the two client scripts of the repository:
    the v4 script (state object [AppState], helper [isValidRouletteNumber])
    and the earlier script [static/js/app.js] (state object [state], inline
    validation).  Host functions of the JavaScript runtime that the scripts
    call ([String.prototype.trim], [parseInt], [Array.prototype.slice],
    [reverse], [splice], [push]) are written out from their ECMAScript
    definitions; [parseFloat] is kept as a section variable. *)

From Stdlib Require Import ZArith String Ascii List Bool Lia.
From Stdlib Require Import Floats.SpecFloat Numbers.DecimalString.
From Stdlib Require Import Numbers.DecimalNat Numbers.DecimalFacts.
From stdpp Require Import gmap strings list fin_maps.

Local Open Scope string_scope.

(** ** JavaScript host functions on strings *)

Module JS.

(** Strings are sequences of code units; the model keeps the code units
    U+0000..U+00FF, one [ascii] each.  In that range the WhiteSpace and
    LineTerminator code points are TAB, LF, VT, FF, CR, SP and NBSP. *)
Definition isWhiteSpace (c : ascii) : bool :=
  let n := N_of_ascii c in
  ((n =? 9) || (n =? 10) || (n =? 11) || (n =? 12) || (n =? 13)
   || (n =? 32) || (n =? 160))%N.

Fixpoint trimStart (s : string) : string :=
  match s with
  | String c s' => if isWhiteSpace c then trimStart s' else s
  | EmptyString => EmptyString
  end.

Definition reverseString (s : string) : string :=
  string_of_list_ascii (List.rev (list_ascii_of_string s)).

Definition trimEnd (s : string) : string :=
  reverseString (trimStart (reverseString s)).

(** [String.prototype.trim] *)
Definition trim (s : string) : string := trimEnd (trimStart s).

(** Value of a code unit as a digit, letters counting from ten. *)
Definition digitValue (c : ascii) : option Z :=
  let n := Z.of_N (N_of_ascii c) in
  if ((48 <=? n) && (n <=? 57))%Z then Some (n - 48)%Z
  else if ((97 <=? n) && (n <=? 122))%Z then Some (n - 87)%Z
  else if ((65 <=? n) && (n <=? 90))%Z then Some (n - 55)%Z
  else None.

Definition radixDigit (R : Z) (c : ascii) : option Z :=
  match digitValue c with
  | Some d => if (d <? R)%Z then Some d else None
  | None => None
  end.

(** Reads the longest prefix of radix-[R] digits; [acc] is [None] until a
    first digit has been read. *)
Fixpoint parseDigits (R : Z) (acc : option Z) (s : string) : option Z :=
  match s with
  | String c s' =>
      match radixDigit R c with
      | Some d => parseDigits R (Some (R * default 0%Z acc + d)%Z) s'
      | None => acc
      end
  | EmptyString => acc
  end.

(** [parseInt(string)] with the radix left undefined.  [None] is NaN; [Some z]
    is the Number whose mathematical value is [z].  The Number is the double
    nearest to [z]; that rounding is monotone and exact on small integers, so
    the comparisons with 0 and 36 and the membership tests in the red numbers
    done by the scripts agree with the ones on [z] (and -0 compares as 0). *)
Definition parseInt (input : string) : option Z :=
  let S0 := trimStart input in
  let '(sign, S1) :=
    match S0 with
    | String "-" r => ((-1)%Z, r)
    | String "+" r => (1%Z, r)
    | _ => (1%Z, S0)
    end in
  let '(R, S2) :=
    match S1 with
    | String "0" (String "x" r) => (16%Z, r)
    | String "0" (String "X" r) => (16%Z, r)
    | _ => (10%Z, S1)
    end in
  match parseDigits R None S2 with
  | Some m => Some (sign * m)%Z
  | None => None
  end.

(** [isNaN(n)] and the relational operators against an integer literal; every
    comparison with NaN is false. *)
Definition isNaN (n : option Z) : bool :=
  match n with Some _ => false | None => true end.

Definition geb (n : option Z) (k : Z) : bool :=
  match n with Some v => (k <=? v)%Z | None => false end.

Definition leb (n : option Z) (k : Z) : bool :=
  match n with Some v => (v <=? k)%Z | None => false end.

Definition ltb (n : option Z) (k : Z) : bool :=
  match n with Some v => (v <? k)%Z | None => false end.

Definition gtb (n : option Z) (k : Z) : bool :=
  match n with Some v => (k <? v)%Z | None => false end.

(** [n === k] for an integer literal [k] *)
Definition strictEqNum (n : option Z) (k : Z) : bool :=
  match n with Some v => (v =? k)%Z | None => false end.

(** [String(n)] for a non-negative integer: its decimal numeral. *)
Definition toString (n : nat) : string :=
  NilEmpty.string_of_uint (Nat.to_uint n).

End JS.

(** ** Colours *)

Inductive color : Set := Red | Black | Green.

Definition color_eqb (a b : color) : bool :=
  match a, b with
  | Red, Red | Black, Black | Green, Green => true
  | _, _ => false
  end.

(** The CSS class name the scripts interpolate into the markup. *)
Definition color_class (c : color) : string :=
  match c with Red => "red" | Black => "black" | Green => "green" end.

(** The tokens "0", "1", ..., "36" and "00". *)
Definition canonical_tokens : list string :=
  List.map JS.toString (seq 0 37) ++ ["00"].

(** ** Numbers

    A JavaScript Number is an IEEE-754 binary64 value, here a [spec_float]. *)

Definition positiveZero : spec_float := S754_zero false.

(** [!x] on a Number: true for +0, -0 and NaN. *)
Definition falsy (x : spec_float) : bool :=
  match x with
  | S754_zero _ | S754_nan => true
  | _ => false
  end.

(** ** The page, the server and the effects of a handler *)

(** What the handlers read from the document, and the parts of it they write
    and read back.  [screens] maps the id of each screen element of the page
    to whether it carries the class [active]; the ids given to [showScreen]
    are looked up there.  The inputs, the button and the containers the
    handlers touch without a guard are taken to be on the page. *)
Record Document : Type := mkDocument {
  bankroll_value : string;
  strategy_checkboxes : list (string * bool);
  warmupInput_value : string;
  numberInput_value : string;
  startGameBtn_disabled : bool;
  screens : gmap string bool
}.

(** The JSON object sent by the server, and the object after
    [response.json()]: its [history] array lives in the store of arrays. *)
Record payload : Type := mkPayload {
  p_success : bool;
  p_error : option string;
  p_history : option (list string)
}.

Record data : Type := mkData {
  success : bool;
  error : option string;
  history : option nat
}.

(** The outcome of one [fetch]: the promise rejects (or the body is not
    JSON), or a response arrives with its [ok] flag and its body. *)
Inductive response : Type :=
  | Rejected
  | Responded (ok : bool) (p : payload).

Inductive body : Type :=
  | NoBody
  | InitializeBody (bankroll : spec_float) (strategies : gmap string bool)
  | WarmupBody (numbers : list string)
  | SpinBody (number : string).

(** Writes of a handler that it never reads back.  [Render] sets the
    [innerHTML] of a container to one element per item (class, text);
    [Display] stands for a write whose text comes from [Intl.NumberFormat]
    or from a float; [Counter] writes a count; [FocusFirstIn] focuses the
    first focusable element of a screen, when it has one; [Defer] is a
    [setTimeout]. *)
Inductive effect : Type :=
  | Fetch (endpoint : string) (b : body)
  | Toast (message type : string)
  | Loading (active : bool)
  | Modal (active : bool)
  | Focus (id : string)
  | FocusFirstIn (id : string)
  | Defer (ms : nat) (e : effect)
  | ConsoleError (what : string)
  | Render (id : string) (items : list (string * string))
  | Placeholder (id : string) (text : string)
  | Counter (id : string) (n : nat)
  | Display (id : string).

(** The world a handler runs in: the script's state object, the document,
    the store of arrays (reference to contents) and the effects so far, the
    oldest first. *)
Record World (St : Type) : Type := mkWorld {
  appState : St;
  doc : Document;
  arrays : gmap nat (list string);
  log : list effect
}.
Arguments mkWorld {St}.
Arguments appState {St}.
Arguments doc {St}.
Arguments arrays {St}.
Arguments log {St}.

(** Handlers are state transformers on the world.  A handler that awaits an
    answer takes it as an argument and is run to its end in one piece. *)
Definition M (St A : Type) : Type := World St -> A * World St.

#[global] Instance M_ret St : MRet (M St) := fun A a w => (a, w).
#[global] Instance M_bind St : MBind (M St) :=
  fun A B f m w => let '(a, w') := m w in f a w'.

Section Primitives.
Context {St : Type}.

Definition getApp : M St St := fun w => (appState w, w).
Definition setApp (s : St) : M St unit :=
  fun w => (tt, mkWorld s (doc w) (arrays w) (log w)).
Definition getDoc : M St Document := fun w => (doc w, w).
Definition setDoc (d : Document) : M St unit :=
  fun w => (tt, mkWorld (appState w) d (arrays w) (log w)).
Definition emit (e : effect) : M St unit :=
  fun w => (tt, mkWorld (appState w) (doc w) (arrays w) (log w ++ [e])).

(** Arrays: allocation of a fresh array, and the methods that read or
    write an array through its reference. *)
Definition newArray (l : list string) : M St nat :=
  fun w => let r := fresh (dom (arrays w)) in
           (r, mkWorld (appState w) (doc w) (<[r := l]> (arrays w)) (log w)).
Definition readArray (r : nat) : M St (list string) :=
  fun w => (default [] (arrays w !! r), w).
Definition writeArray (r : nat) (l : list string) : M St unit :=
  fun w => (tt, mkWorld (appState w) (doc w) (<[r := l]> (arrays w)) (log w)).

Definition run {A} (m : M St A) (w : World St) : World St := snd (m w).
End Primitives.

(** [Array.prototype.slice(start)]: a new array holding the elements from
    [start] on; a negative [start] counts from the end. *)
Definition sliceFrom {A} (start : Z) (l : list A) : list A :=
  let len := Z.of_nat (length l) in
  let k := if (start <? 0)%Z then Z.max (len + start) 0 else Z.min start len in
  drop (Z.to_nat k) l.

(** [Array.prototype.splice(start, 1)]: the array without the element at
    [start], if there is one; a negative [start] counts from the end. *)
Definition splice1 {A} (start : Z) (l : list A) : list A :=
  let len := Z.of_nat (length l) in
  let k := if (start <? 0)%Z then Z.max (len + start) 0 else Z.min start len in
  let deleteCount := Z.min 1 (len - k) in
  take (Z.to_nat k) l ++ drop (Z.to_nat (k + deleteCount)) l.

(** [s.replace(pat, rep)] for a string pattern: the first occurrence only
    ([rep] holding no [$] pattern). *)
Fixpoint replaceFirst (pat rep s : string) : string :=
  if String.prefix pat s
  then rep ++ String.substring (String.length pat) (String.length s - String.length pat) s
  else match s with
       | String c s' => String c (replaceFirst pat rep s')
       | EmptyString => EmptyString
       end.

(** [x || dflt] for an optional string field: the default replaces
    [undefined] and the empty string. *)
Definition orElse (x : option string) (dflt : string) : string :=
  match x with
  | Some s => if String.eqb s "" then dflt else s
  | None => dflt
  end.

(** Writes to the document. *)
Definition set_warmupInput (v : string) (d : Document) : Document :=
  mkDocument (bankroll_value d) (strategy_checkboxes d) v (numberInput_value d)
             (startGameBtn_disabled d) (screens d).
Definition set_numberInput (v : string) (d : Document) : Document :=
  mkDocument (bankroll_value d) (strategy_checkboxes d) (warmupInput_value d) v
             (startGameBtn_disabled d) (screens d).
Definition set_startGameBtn (b : bool) (d : Document) : Document :=
  mkDocument (bankroll_value d) (strategy_checkboxes d) (warmupInput_value d)
             (numberInput_value d) b (screens d).
Definition set_screens (m : gmap string bool) (d : Document) : Document :=
  mkDocument (bankroll_value d) (strategy_checkboxes d) (warmupInput_value d)
             (numberInput_value d) (startGameBtn_disabled d) m.

(** Array methods that go through the store. *)
Module JSArray.
Section Methods.
Context {St : Type}.

(** [a.slice(start)] returns a new array; [a] is left as it is. *)
Definition slice (start : Z) (r : nat) : M St nat :=
  l ← readArray r; newArray (sliceFrom start l).

(** [a.reverse()] reverses [a] in place and returns [a] itself. *)
Definition reverse (r : nat) : M St nat :=
  l ← readArray r; writeArray r (rev l);; mret r.
End Methods.
End JSArray.

(** [obj[key] = v] on an object made by an object literal, [v] a boolean:
    the assignment creates or overwrites the own property [key], except for
    the key "__proto__", which reaches the setter of [Object.prototype]; that
    setter ignores a value that is not an object and no property is made. *)
Definition setProperty (key : string) (v : bool) (obj : gmap string bool)
  : gmap string bool :=
  if String.eqb key "__proto__" then obj else <[key := v]> obj.

(** The object both scripts build from the strategy checkboxes, in document
    order; a later checkbox with the same value overwrites an earlier one. *)
Definition collectStrategies (cbs : list (string * bool)) : gmap string bool :=
  foldl (fun acc cb => setProperty cb.1 cb.2 acc) ∅ cbs.

(** [Object.values(strategies).some(v => v === true)] *)
Definition hasActiveStrategy (m : gmap string bool) : bool :=
  existsb (fun kv => Bool.eqb kv.2 true) (map_to_list m).

(** ** The v4 script *)

Module V4.

Record AppState : Type := mkAppState {
  bankroll : spec_float;
  strategies : gmap string bool;
  warmupNumbers : list string;
  initialized : bool;
  currentScreen : string
}.

(** The object literal the script starts from. *)
Definition initialAppState : AppState :=
  mkAppState positiveZero ∅ [] false "setup".

Definition set_bankroll (b : spec_float) (s : AppState) : AppState :=
  mkAppState b (strategies s) (warmupNumbers s) (initialized s) (currentScreen s).
Definition set_strategies (m : gmap string bool) (s : AppState) : AppState :=
  mkAppState (bankroll s) m (warmupNumbers s) (initialized s) (currentScreen s).
Definition set_warmupNumbers (l : list string) (s : AppState) : AppState :=
  mkAppState (bankroll s) (strategies s) l (initialized s) (currentScreen s).
Definition set_initialized (b : bool) (s : AppState) : AppState :=
  mkAppState (bankroll s) (strategies s) (warmupNumbers s) b (currentScreen s).
Definition set_currentScreen (c : string) (s : AppState) : AppState :=
  mkAppState (bankroll s) (strategies s) (warmupNumbers s) (initialized s) c.

Definition RED_NUMBERS : gset Z :=
  list_to_set [1; 3; 5; 7; 9; 12; 14; 16; 18; 19; 21; 23; 25; 27; 30; 32; 34; 36]%Z.

(** [RED_NUMBERS.has(n)]; NaN is in no set of integers. *)
Definition has (s : gset Z) (n : option Z) : bool :=
  match n with
  | Some v => bool_decide (v ∈ s)
  | None => false
  end.

Definition getNumberColor (num : string) : color :=
  let n := JS.parseInt num in
  if String.eqb num "0" || String.eqb num "00" || JS.strictEqNum n 0 then Green
  else if has RED_NUMBERS n then Red else Black.

Definition isValidRouletteNumber (num : string) : bool :=
  if String.eqb num "00" then true
  else
    let n := JS.parseInt num in
    negb (JS.isNaN n) && JS.geb n 0 && JS.leb n 36.

(** *** Interface helpers *)

Definition showLoading : M AppState unit := emit (Loading true).
Definition hideLoading : M AppState unit := emit (Loading false).
Definition showToast (message type : string) : M AppState unit :=
  emit (Toast message type).
Definition openModal : M AppState unit := emit (Modal true).
Definition closeModal : M AppState unit := emit (Modal false).

(** Every screen loses [active]; when the target exists it gains it and the
    state records its name without the first "Screen". *)
Definition showScreen (screenId : string) : M AppState unit :=
  d ← getDoc;
  setDoc (set_screens ((fun _ => false) <$> screens d) d);;
  d ← getDoc;
  match screens d !! screenId with
  | Some _ =>
      setDoc (set_screens (<[screenId := true]> (screens d)) d);;
      s ← getApp;
      setApp (set_currentScreen (replaceFirst "Screen" "" screenId) s);;
      emit (Defer 100 (FocusFirstIn screenId))
  | None => mret tt
  end.

(** *** Requests

    [apiRequest] is [fetch] followed by the handling of the answer; it
    returns [None] when it throws (a rejected [fetch], or a response that is
    not [ok]), after logging the error. *)
Definition send (endpoint : string) (b : body) : M AppState unit :=
  emit (Fetch endpoint b).

Definition receive (endpoint : string) (r : response) : M AppState (option data) :=
  match r with
  | Rejected => emit (ConsoleError endpoint);; mret None
  | Responded ok p =>
      h ← match p_history p with
          | Some l => a ← newArray l; mret (Some a)
          | None => mret None
          end;
      if ok then mret (Some (mkData (p_success p) (p_error p) h))
      else emit (ConsoleError endpoint);; mret None
  end.

Definition apiRequest (endpoint : string) (b : body) (r : response)
  : M AppState (option data) :=
  send endpoint b;; receive endpoint r.

(** *** Game display *)

Definition updateBankrollDisplay : M AppState unit :=
  emit (Display "currentBankroll");; emit (Display "profitLoss").
Definition updateLastNumber : M AppState unit := emit (Display "lastNumber").
Definition updateAction : M AppState unit := emit (Display "actionContent").
Definition updateSignals : M AppState unit := emit (Display "signalsContent").
Definition updateHotCold : M AppState unit :=
  emit (Display "hotNumbers");; emit (Display "coldNumbers").

Definition historyItem (num : string) : string * string :=
  (color_class (getNumberColor num), num).

Definition updateHistory (history : option nat) : M AppState unit :=
  match history with
  | None => emit (Placeholder "historyContent" "Nenhum historico ainda")
  | Some h =>
      l ← readArray h;
      if (length l =? 0)%nat
      then emit (Placeholder "historyContent" "Nenhum historico ainda")
      else
        sliced ← JSArray.slice (-20) h;
        recent ← JSArray.reverse sliced;
        items ← readArray recent;
        emit (Render "historyContent" (historyItem <$> items))
  end.

(** Returns [false] when it throws: [data.history.length] on a missing
    [history]. *)
Definition updateGameDisplay (d : data) : M AppState bool :=
  updateBankrollDisplay;;
  match history d with
  | None => mret false
  | Some h =>
      l ← readArray h;
      emit (Counter "totalSpins" (length l));;
      updateLastNumber;;
      updateAction;;
      updateSignals;;
      updateHistory (Some h);;
      updateHotCold;;
      mret true
  end.

(** [updateStats] up to its [await], and from the answer on. *)
Definition updateStats_send : M AppState unit := send "/api/stats" NoBody.

Definition updateStats_resume (r : response) : M AppState unit :=
  res ← receive "/api/stats" r;
  match res with
  | Some d =>
      if success d then
        updateBankrollDisplay;;
        emit (Display "totalSpins");;
        updateHotCold;;
        updateHistory (history d)
      else mret tt
  | None => emit (ConsoleError "Erro ao buscar estatisticas:")
  end.

Definition updateStats (r : response) : M AppState unit :=
  updateStats_send;; updateStats_resume r.

(** *** Setup screen *)

Section Setup.
(** The host's [parseFloat]. *)
Variable parseFloat : string -> spec_float.

Definition goToWarmup (r : response) : M AppState unit :=
  d ← getDoc;
  let bankroll := parseFloat (bankroll_value d) in
  if falsy bankroll || SFleb bankroll positiveZero then
    showToast "Por favor, insira uma banca valida" "error";;
    emit (Focus "bankroll")
  else
    let strategies := collectStrategies (strategy_checkboxes d) in
    if negb (hasActiveStrategy strategies) then
      showToast "Selecione pelo menos uma estrategia" "error"
    else
      s ← getApp;
      setApp (set_bankroll bankroll s);;
      s ← getApp;
      setApp (set_strategies strategies s);;
      showLoading;;
      res ← apiRequest "/api/initialize" (InitializeBody bankroll strategies) r;
      match res with
      | Some d =>
          hideLoading;;
          if success d then
            showScreen "warmupScreen";;
            showToast "Configuracao salva com sucesso!" "success"
          else showToast (orElse (error d) "Erro ao inicializar") "error"
      | None =>
          hideLoading;;
          showToast "Erro ao conectar com o servidor" "error"
      end.
End Setup.

(** *** Warmup screen *)

Definition updateWarmupDisplay : M AppState unit :=
  s ← getApp;
  let count := length (warmupNumbers s) in
  emit (Display "warmupProgressBar");;
  emit (Counter "warmupCount" count);;
  emit (Counter "warmup-progress" count);;
  if (count =? 0)%nat
  then emit (Placeholder "warmupNumbers" "Nenhum numero adicionado")
  else emit (Render "warmupNumbers" (historyItem <$> warmupNumbers s)).

Definition addWarmupNumber : M AppState unit :=
  d ← getDoc;
  let num := JS.trim (warmupInput_value d) in
  if String.eqb num "" then mret tt
  else if negb (isValidRouletteNumber num) then
    showToast "Numero invalido! Use 0-36" "error";;
    setDoc (set_warmupInput "" d);;
    emit (Focus "warmupInput")
  else
    s ← getApp;
    if (12 <=? length (warmupNumbers s))%nat then
      showToast "Maximo de 12 numeros atingido" "warning"
    else
      setApp (set_warmupNumbers (warmupNumbers s ++ [num]) s);;
      updateWarmupDisplay;;
      d ← getDoc;
      setDoc (set_warmupInput "" d);;
      emit (Focus "warmupInput");;
      s ← getApp;
      if (length (warmupNumbers s) =? 12)%nat then
        d ← getDoc;
        setDoc (set_startGameBtn false d);;
        showToast "12 numeros inseridos! Pronto para comecar" "success"
      else mret tt.

Definition clearWarmup : M AppState unit :=
  s ← getApp;
  setApp (set_warmupNumbers [] s);;
  updateWarmupDisplay;;
  d ← getDoc;
  setDoc (set_startGameBtn true d);;
  emit (Focus "warmupInput").

Definition removeWarmupNumber (index : Z) : M AppState unit :=
  s ← getApp;
  setApp (set_warmupNumbers (splice1 index (warmupNumbers s)) s);;
  updateWarmupDisplay;;
  s ← getApp;
  d ← getDoc;
  setDoc (set_startGameBtn (negb (length (warmupNumbers s) =? 12)%nat) d).

(** [r] answers the warmup request, [rStats] the statistics request that
    [updateStats] sends without being awaited. *)
Definition startGame (r rStats : response) : M AppState unit :=
  s ← getApp;
  if negb (length (warmupNumbers s) =? 12)%nat then
    showToast "Insira exatamente 12 numeros" "error"
  else
    showLoading;;
    res ← apiRequest "/api/warmup" (WarmupBody (warmupNumbers s)) r;
    match res with
    | Some d =>
        hideLoading;;
        if success d then
          s ← getApp;
          setApp (set_initialized true s);;
          showScreen "gameScreen";;
          updateStats_send;;
          showToast "Sistema iniciado com sucesso!" "success";;
          updateStats_resume rStats
        else showToast (orElse (error d) "Erro ao aquecer sistema") "error"
    | None =>
        hideLoading;;
        showToast "Erro ao conectar com o servidor" "error"
    end.

(** *** Game screen *)

Definition processSpin (r : response) : M AppState unit :=
  d ← getDoc;
  let num := JS.trim (numberInput_value d) in
  if String.eqb num "" then mret tt
  else if negb (isValidRouletteNumber num) then
    showToast "Numero invalido! Use 0-36" "error";;
    setDoc (set_numberInput "" d);;
    emit (Focus "numberInput")
  else
    showLoading;;
    res ← apiRequest "/api/spin" (SpinBody num) r;
    let failed := hideLoading;; showToast "Erro ao conectar com o servidor" "error" in
    match res with
    | Some dt =>
        hideLoading;;
        if success dt then
          done ← updateGameDisplay dt;
          if done : bool then
            d ← getDoc;
            setDoc (set_numberInput "" d);;
            emit (Focus "numberInput")
          else failed
        else showToast (orElse (error dt) "Erro ao processar numero") "error"
    | None => failed
    end.

(** *** Reset *)

Definition confirmReset : M AppState unit := openModal.

Definition executeReset (r : response) : M AppState unit :=
  closeModal;;
  showLoading;;
  res ← apiRequest "/api/reset" NoBody r;
  match res with
  | Some d =>
      hideLoading;;
      if success d then
        s ← getApp;
        setApp (set_bankroll positiveZero s);;
        s ← getApp;
        setApp (set_strategies ∅ s);;
        s ← getApp;
        setApp (set_warmupNumbers [] s);;
        s ← getApp;
        setApp (set_initialized false s);;
        showScreen "setupScreen";;
        showToast "Sessao encerrada com sucesso" "success"
      else showToast (orElse (error d) "Erro ao resetar") "error"
  | None =>
      hideLoading;;
      showToast "Erro ao conectar com o servidor" "error"
  end.

End V4.

(** ** The earlier script, [static/js/app.js]

    Its promise chains are [fetch(...).then(json).then(handler).catch(...)]:
    a rejected [fetch], a body that is not JSON, or an exception thrown by the
    handler all end in the [catch] callback; the [ok] flag of the response is
    not read.  Message literals are kept as the file spells them. *)

Module Legacy.

Record state : Type := mkState {
  bankroll : spec_float;
  strategies : gmap string bool;
  warmupNumbers : list string;
  initialized : bool
}.

Definition initialState : state := mkState positiveZero ∅ [] false.

Definition set_bankroll (b : spec_float) (s : state) : state :=
  mkState b (strategies s) (warmupNumbers s) (initialized s).
Definition set_strategies (m : gmap string bool) (s : state) : state :=
  mkState (bankroll s) m (warmupNumbers s) (initialized s).
Definition set_warmupNumbers (l : list string) (s : state) : state :=
  mkState (bankroll s) (strategies s) l (initialized s).
Definition set_initialized (b : bool) (s : state) : state :=
  mkState (bankroll s) (strategies s) (warmupNumbers s) b.

Definition redNumbers : list Z :=
  [1; 3; 5; 7; 9; 12; 14; 16; 18; 19; 21; 23; 25; 27; 30; 32; 34; 36]%Z.

(** [redNumbers.includes(n)]; NaN is not among the integers of the list. *)
Definition includes (l : list Z) (n : option Z) : bool :=
  match n with
  | Some v => existsb (Z.eqb v) l
  | None => false
  end.

Definition getNumberColor (num : string) : color :=
  if String.eqb num "0" || String.eqb num "00" then Green
  else if includes redNumbers (JS.parseInt num) then Red else Black.

(** The test both input handlers make in line: [true] when the handler
    goes on, [false] when it shows the invalid-number message. *)
Definition inlineValid (num : string) : bool :=
  let numInt := JS.parseInt num in
  negb (JS.isNaN numInt || JS.ltb numInt 0 || JS.gtb numInt 36).

Definition showLoading : M state unit := emit (Loading true).
Definition hideLoading : M state unit := emit (Loading false).
Definition showToast (message type : string) : M state unit :=
  emit (Toast message type).

(** Returns [false] when it throws: no element has the id. *)
Definition showScreen (screenId : string) : M state bool :=
  d ← getDoc;
  setDoc (set_screens ((fun _ => false) <$> screens d) d);;
  d ← getDoc;
  match screens d !! screenId with
  | Some _ => setDoc (set_screens (<[screenId := true]> (screens d)) d);; mret true
  | None => mret false
  end.

Definition send (endpoint : string) (b : body) : M state unit :=
  emit (Fetch endpoint b).

(** [response.json()]: [None] when the chain is rejected. *)
Definition receive (r : response) : M state (option data) :=
  match r with
  | Rejected => mret None
  | Responded _ p =>
      h ← match p_history p with
          | Some l => a ← newArray l; mret (Some a)
          | None => mret None
          end;
      mret (Some (mkData (p_success p) (p_error p) h))
  end.

(** The [catch] callback shared by the request handlers. *)
Definition onError : M state unit :=
  hideLoading;;
  emit (ConsoleError "Error:");;
  showToast "Erro ao conectar com o servidor" "error".

Definition historyItem (num : string) : string * string :=
  (color_class (getNumberColor num), num).

Definition updateHistory (history : option nat) : M state unit :=
  match history with
  | None => emit (Placeholder "historyContent" "Nenhum histórico ainda")
  | Some h =>
      l ← readArray h;
      if (length l =? 0)%nat
      then emit (Placeholder "historyContent" "Nenhum histórico ainda")
      else
        sliced ← JSArray.slice (-20) h;
        recent ← JSArray.reverse sliced;
        items ← readArray recent;
        emit (Render "historyContent" (historyItem <$> items))
  end.

Definition updateAction : M state unit := emit (Display "actionContent").
Definition updateSignals : M state unit := emit (Display "signalsContent").
Definition updateHotCold : M state unit :=
  emit (Display "hotNumbers");; emit (Display "coldNumbers").

(** Returns [false] when it throws: [data.history.length] on a missing
    [history]. *)
Definition updateGameDisplay (d : data) : M state bool :=
  emit (Display "currentBankroll");;
  emit (Display "profitLoss");;
  match history d with
  | None => mret false
  | Some h =>
      l ← readArray h;
      emit (Counter "totalSpins" (length l));;
      emit (Display "lastNumber");;
      updateAction;;
      updateSignals;;
      updateHistory (Some h);;
      updateHotCold;;
      mret true
  end.

Definition updateStats_send : M state unit := send "/api/stats" NoBody.

Definition updateStats_resume (r : response) : M state unit :=
  res ← receive r;
  match res with
  | Some d =>
      if success d then
        emit (Display "currentBankroll");;
        emit (Display "profitLoss");;
        emit (Display "totalSpins")
      else mret tt
  | None => emit (ConsoleError "Error fetching stats:")
  end.

Section Setup.
Variable parseFloat : string -> spec_float.

Definition goToWarmup (r : response) : M state unit :=
  d ← getDoc;
  let bankroll := parseFloat (bankroll_value d) in
  if falsy bankroll || SFleb bankroll positiveZero then
    showToast "Por favor, insira uma banca válida" "error";;
    emit (Focus "bankroll")
  else
    let strategies := collectStrategies (strategy_checkboxes d) in
    if negb (hasActiveStrategy strategies) then
      showToast "Selecione pelo menos uma estratégia" "error"
    else
      s ← getApp;
      setApp (set_bankroll bankroll s);;
      s ← getApp;
      setApp (set_strategies strategies s);;
      showLoading;;
      send "/api/initialize" (InitializeBody bankroll strategies);;
      res ← receive r;
      match res with
      | Some d =>
          hideLoading;;
          if success d then
            shown ← showScreen "warmupScreen";
            if shown : bool then
              showToast "Configuração salva com sucesso!" "success";;
              emit (Defer 300 (Focus "warmupInput"))
            else onError
          else showToast (orElse (error d) "Erro ao inicializar") "error"
      | None => onError
      end.
End Setup.

Definition updateWarmupDisplay : M state unit :=
  s ← getApp;
  let count := length (warmupNumbers s) in
  emit (Display "warmupProgressBar");;
  emit (Counter "warmupCount" count);;
  emit (Render "warmupNumbers" ((fun num => ("warmup-number-tag", num)) <$> warmupNumbers s)).

Definition addWarmupNumber : M state unit :=
  d ← getDoc;
  let num := JS.trim (warmupInput_value d) in
  if String.eqb num "" then mret tt
  else if negb (inlineValid num) then
    showToast "Número inválido! Use 0-36" "error";;
    setDoc (set_warmupInput "" d);;
    emit (Focus "warmupInput")
  else
    s ← getApp;
    if (12 <=? length (warmupNumbers s))%nat then
      showToast "Máximo de 12 números atingido" "error"
    else
      setApp (set_warmupNumbers (warmupNumbers s ++ [num]) s);;
      updateWarmupDisplay;;
      d ← getDoc;
      setDoc (set_warmupInput "" d);;
      emit (Focus "warmupInput");;
      s ← getApp;
      if (length (warmupNumbers s) =? 12)%nat then
        d ← getDoc;
        setDoc (set_startGameBtn false d);;
        showToast "12 números inseridos! Pronto para começar" "success"
      else mret tt.

Definition startGame (r rStats : response) : M state unit :=
  s ← getApp;
  if negb (length (warmupNumbers s) =? 12)%nat then
    showToast "Insira exatamente 12 números" "error"
  else
    showLoading;;
    send "/api/warmup" (WarmupBody (warmupNumbers s));;
    res ← receive r;
    match res with
    | Some d =>
        hideLoading;;
        if success d then
          s ← getApp;
          setApp (set_initialized true s);;
          shown ← showScreen "gameScreen";
          if shown : bool then
            updateStats_send;;
            showToast "Sistema iniciado com sucesso!" "success";;
            emit (Defer 300 (Focus "numberInput"));;
            updateStats_resume rStats
          else onError
        else showToast (orElse (error d) "Erro ao aquecer sistema") "error"
    | None => onError
    end.

Definition processSpin (r : response) : M state unit :=
  d ← getDoc;
  let num := JS.trim (numberInput_value d) in
  if String.eqb num "" then mret tt
  else if negb (inlineValid num) then
    showToast "Número inválido! Use 0-36" "error";;
    setDoc (set_numberInput "" d);;
    emit (Focus "numberInput")
  else
    showLoading;;
    send "/api/spin" (SpinBody num);;
    res ← receive r;
    match res with
    | Some dt =>
        hideLoading;;
        if success dt then
          done ← updateGameDisplay dt;
          if done : bool then
            d ← getDoc;
            setDoc (set_numberInput "" d);;
            emit (Focus "numberInput")
          else onError
        else showToast (orElse (error dt) "Erro ao processar número") "error"
    | None => onError
    end.

End Legacy.

(** ** Observations, scenarios and the specification's resolver *)

(** The requests among a list of effects, in the order they were sent. *)
Definition request_of (e : effect) : option (string * body) :=
  match e with
  | Fetch endpoint b => Some (endpoint, b)
  | _ => None
  end.

Definition requests (l : list effect) : list (string * body) :=
  omap request_of l.

(** The numbers a [Render] puts on the page, first element first; a
    placeholder shows none. *)
Definition shownNumbers (e : effect) : list string :=
  match e with
  | Render _ items => snd <$> items
  | _ => []
  end.

(** An answer the v4 script takes as a success: it arrived, it is [ok] and
    its body says [success]. *)
Definition succeeds (r : response) : bool :=
  match r with
  | Responded true p => p_success p
  | _ => false
  end.

(** The same for the earlier script, which does not read [ok]. *)
Definition succeedsLegacy (r : response) : bool :=
  match r with
  | Responded _ p => p_success p
  | Rejected => false
  end.

Definition inRange (n : option Z) : Prop :=
  exists v : Z, n = Some v /\ (0 <= v <= 36)%Z.

(** The resolver of the specification, in its words: a token is valid when
    it parses to an integer in [0,36], or is "00" on an AMERICAN table; "00"
    is invalid on a EUROPEAN table. *)
Inductive roulette_type : Set := EUROPEAN | AMERICAN.

Definition spec_accepts (rt : roulette_type) (token : string) : bool :=
  if String.eqb token "00"
  then match rt with AMERICAN => true | EUROPEAN => false end
  else match JS.parseInt token with
       | Some v => ((0 <=? v) && (v <=? 36))%Z
       | None => false
       end.

(** One user action on the warmup screen: typing [typed] in the input and
    submitting it, pressing the remove button of the tag at [index], or
    pressing the clear button. *)
Inductive warmupCall : Type :=
  | AddWarmupNumber (typed : string)
  | RemoveWarmupNumber (index : Z)
  | ClearWarmup.

Definition warmupStep (c : warmupCall) : M V4.AppState unit :=
  match c with
  | AddWarmupNumber typed =>
      d ← getDoc;
      setDoc (set_warmupInput typed d);;
      V4.addWarmupNumber
  | RemoveWarmupNumber index => V4.removeWarmupNumber index
  | ClearWarmup => V4.clearWarmup
  end.

Fixpoint warmupSteps (cs : list warmupCall) : M V4.AppState unit :=
  match cs with
  | [] => mret tt
  | c :: cs' => warmupStep c;; warmupSteps cs'
  end.

(** A host function that agrees with [parseFloat] on the strings made of
    decimal digits only (the integer they spell, rounded to binary64); it is
    NaN elsewhere.  It instantiates the section variable in the examples. *)
Fixpoint allDigits (s : string) : bool :=
  match s with
  | String c s' =>
      match JS.radixDigit 10 c with
      | Some _ => allDigits s'
      | None => false
      end
  | EmptyString => true
  end.

Definition parseFloat_integers (s : string) : spec_float :=
  if allDigits s then
    match JS.parseDigits 10 None s with
    | Some v => binary_normalize 53 1024 v 0 false
    | None => S754_nan
    end
  else S754_nan.

(** A page with the three screens, a bankroll of 100 typed in and the
    colour strategy ticked. *)
Definition samplePage : Document :=
  mkDocument "100" [("COR", true); ("FRIO", false)] "" "" true
             (list_to_map [("setupScreen", true); ("warmupScreen", false);
                           ("gameScreen", false)]).

Definition sampleWorld : World V4.AppState :=
  mkWorld V4.initialAppState samplePage ∅ [].

Definition sampleLegacyWorld : World Legacy.state :=
  mkWorld Legacy.initialState samplePage ∅ [].

(** The effects a handler added to the log of [w] when it ended in [w']. *)
Definition effectsAfter {St} (w w' : World St) : list effect :=
  drop (length (log w)) (log w').

(** The invariant of the warmup list. *)
Definition warmupInvariant (l : list string) : Prop :=
  length l <= 12 /\ Forall (fun tok => V4.isValidRouletteNumber tok = true) l.

(** Checks run on each n of 0..36 by computation. *)
Definition tokenChecks (n : nat) : bool :=
  let tok := JS.toString n in
  String.eqb (JS.trim tok) tok && negb (String.eqb tok "")
  && V4.isValidRouletteNumber tok && Legacy.inlineValid tok
  && match JS.parseInt tok with Some v => (v =? Z.of_nat n)%Z | None => false end.


Definition sameColor (n : nat) : bool :=
  color_eqb (V4.getNumberColor (JS.toString n)) (Legacy.getNumberColor (JS.toString n)).

(** Worlds and answers for the examples. *)
Definition okResponse : response :=
  Responded true (mkPayload true None (Some ["7"; "8"; "9"])).

Definition twelveNumbers : list string :=
  ["1"; "2"; "3"; "4"; "5"; "6"; "7"; "8"; "9"; "10"; "11"; "12"].

Definition warmedWorld : World V4.AppState :=
  mkWorld (V4.set_warmupNumbers twelveNumbers V4.initialAppState)
          samplePage ∅ [].

Definition longHistory : list string :=
  List.map JS.toString (seq 0 25).

Definition historyWorld : World V4.AppState :=
  mkWorld V4.initialAppState samplePage {[ 0 := longHistory ]} [].

Definition historyLegacyWorld : World Legacy.state :=
  mkWorld Legacy.initialState samplePage {[ 0 := longHistory ]} [].

Definition spinWorld : World V4.AppState :=
  mkWorld V4.initialAppState
          (set_numberInput "17" samplePage) ∅ [].

Definition unparsablePage : Document :=
  mkDocument "abc" [("COR", true)] "" "" true ∅.

Definition sampleCalls : list warmupCall :=
  [AddWarmupNumber "17"; AddWarmupNumber "abc"; AddWarmupNumber " 00 ";
   RemoveWarmupNumber 0; AddWarmupNumber "5"; ClearWarmup; AddWarmupNumber "36"].
(** ** Definitions used by the further properties *)

(** [trimStart] on the list of code units. *)
Fixpoint lstrip (l : list ascii) : list ascii :=
  match l with
  | c :: l' => if JS.isWhiteSpace c then lstrip l' else l
  | [] => []
  end.

Definition rstrip (l : list ascii) : list ascii := rev (lstrip (rev l)).

(** A string made of white space only (the empty string included). *)
Definition blank (s : string) : Prop :=
  Forall (fun c => JS.isWhiteSpace c = true) (list_ascii_of_string s).

(** The toasts among a list of effects: message and type. *)
Definition toast_of (e : effect) : option (string * string) :=
  match e with
  | Toast message type => Some (message, type)
  | _ => None
  end.

Definition toasts (l : list effect) : list (string * string) :=
  omap toast_of l.

(** Whether the loading overlay is active after a list of effects, when it
    was [before] them. *)
Definition overlayAfter (before : bool) (l : list effect) : bool :=
  fold_left (fun b e => match e with Loading a => a | _ => b end) l before.

(** The message of the toast a v4 handler shows for an answer that is not a
    success, [dflt] being the handler's own default. *)
Definition failureMessage (r : response) (dflt : string) : string :=
  match r with
  | Responded true p => orElse (p_error p) dflt
  | _ => "Erro ao conectar com o servidor"
  end.

(** A sequence of submissions to the warmup input of the earlier script. *)
Fixpoint legacyAdds (typed : list string) : M Legacy.state unit :=
  match typed with
  | [] => mret tt
  | t :: typed' =>
      d ← getDoc;
      setDoc (set_warmupInput t d);;
      Legacy.addWarmupNumber;;
      legacyAdds typed'
  end.

(** The start button is disabled exactly when the warmup list does not hold
    12 numbers. *)
Definition buttonInvariant (w : World V4.AppState) : Prop :=
  startGameBtn_disabled (doc w) =
    negb (length (V4.warmupNumbers (appState w)) =? 12)%nat.

(** A typed string that passes the checks of [addWarmupNumber]. *)
Definition acceptable (typed : string) : bool :=
  negb (String.eqb (JS.trim typed) "") && V4.isValidRouletteNumber (JS.trim typed).

Definition twelveTyped : list string :=
  [" 1"; "2 "; " 3 "; "04"; "5"; "6"; "7"; "8"; "9"; "10"; "00"; "36"].

Definition warmedLegacyWorld : World Legacy.state :=
  mkWorld (Legacy.set_warmupNumbers twelveNumbers Legacy.initialState)
          samplePage ∅ [].

(** An answer with an error status whose body says success. *)
Definition errorStatusPayload : payload := mkPayload true (Some "falhou") None.

(** The profit-and-loss field, as [updateBankrollDisplay] of the v4 script
    and the display code of the earlier script fill it: the text and the
    class name.  [formatCurrency] is the scripts' wrapper of
    [Intl.NumberFormat]. *)
Section BankrollDisplay.
Variable formatCurrency : spec_float -> string.

Definition profitLossField (profitLoss : spec_float) : string * string :=
  let text := formatCurrency (SFabs profitLoss) in
  if SFltb positiveZero profitLoss then ("+" ++ text, "stat-value positive")
  else if SFltb profitLoss positiveZero then ("-" ++ text, "stat-value negative")
  else (text, "stat-value").
End BankrollDisplay.

(** A stand-in for [formatCurrency] in the examples. *)
Definition sampleFormat (x : spec_float) : string :=
  match x with
  | S754_zero _ => "R$ 0,00"
  | S754_nan => "R$ NaN"
  | _ => "R$ 100,00"
  end.

(** ** Integer numerals

    The reading of a token as an integer numeral: an optional sign followed
    by decimal digits only, at least one.  It is written without [parseInt]:
    a string with any other character is no numeral. *)

Definition isDigit (c : ascii) : bool :=
  let n := N_of_ascii c in ((48 <=? n) && (n <=? 57))%N.

Fixpoint digitsValue (acc : Z) (s : string) : option Z :=
  match s with
  | EmptyString => Some acc
  | String c s' =>
      if isDigit c
      then digitsValue (10 * acc + (Z.of_N (N_of_ascii c) - 48))%Z s'
      else None
  end.

Definition integerNumeral (token : string) : option Z :=
  match token with
  | EmptyString => None
  | String "-" (String c r) => option_map Z.opp (digitsValue 0 (String c r))
  | String "+" (String c r) => digitsValue 0 (String c r)
  | _ => digitsValue 0 token
  end.

(** A string without any decimal digit. *)
Definition digitFree (s : string) : Prop :=
  Forall (fun c => isDigit c = false) (list_ascii_of_string s).

(** The writes [updateStats] makes to the statistics fields of the page, and
    console errors. *)
Definition statsWrite (e : effect) : bool :=
  match e with
  | Display id =>
      existsb (String.eqb id)
        ["currentBankroll"; "profitLoss"; "totalSpins"; "hotNumbers"; "coldNumbers"]
  | Render id _ => String.eqb id "historyContent"
  | Placeholder id _ => String.eqb id "historyContent"
  | _ => false
  end.

Definition consoleError (e : effect) : bool :=
  match e with
  | ConsoleError _ => true
  | _ => false
  end.

(** * Proofs *)

Arguments V4.isValidRouletteNumber : simpl never.
Arguments V4.getNumberColor : simpl never.
Arguments Legacy.inlineValid : simpl never.
Arguments Legacy.getNumberColor : simpl never.
Arguments JS.trim : simpl never.
Arguments JS.parseInt : simpl never.
Arguments replaceFirst : simpl never.
Arguments splice1 : simpl never.
Arguments sliceFrom : simpl never.

(** Runs the monadic plumbing of a handler on an explicit world. *)
Ltac exec :=
  repeat (progress
    (unfold run, mbind, mret, M_bind, M_ret, getDoc, setDoc, getApp, setApp,
       emit, newArray, readArray, writeArray, JSArray.slice, JSArray.reverse,
       V4.showToast, V4.showLoading, V4.hideLoading, V4.openModal,
       V4.closeModal, V4.send,
       Legacy.showToast, Legacy.showLoading, Legacy.hideLoading, Legacy.send;
     cbn [fst snd appState doc arrays log negb])).

(** *** Bounded quantifiers by enumeration *)

Lemma below_37 (p : nat -> bool) :
  forallb p (seq 0 37) = true -> forall n, n <= 36 -> p n = true.
Proof.
  intros H n Hn. rewrite forallb_forall in H. apply H. apply in_seq. lia.
Qed.

(** *** The validators *)

Lemma inRange_bool n :
  negb (JS.isNaN n) && JS.geb n 0 && JS.leb n 36 = true <-> inRange n.
Proof.
  unfold inRange. destruct n as [v|]; simpl.
  - rewrite !andb_true_iff, !Z.leb_le. split.
    + intros [H1 H2]. exists v. split; [reflexivity | lia].
    + intros (v' & Hv & Hr). injection Hv as ->. lia.
  - split; [discriminate | intros (v & Hv & _); discriminate].
Qed.

Lemma inlineValid_inRange tok :
  Legacy.inlineValid tok = true <-> inRange (JS.parseInt tok).
Proof.
  unfold Legacy.inlineValid. rewrite <- inRange_bool.
  destruct (JS.parseInt tok) as [v|]; simpl; [|tauto].
  rewrite negb_true_iff, orb_false_iff, andb_true_iff.
  rewrite !Z.ltb_ge, !Z.leb_le. tauto.
Qed.

Lemma isValidRouletteNumber_inRange tok :
  V4.isValidRouletteNumber tok = true <->
  tok = "00" \/ inRange (JS.parseInt tok).
Proof.
  unfold V4.isValidRouletteNumber.
  destruct (String.eqb_spec tok "00") as [->|Hne].
  - split; auto.
  - rewrite inRange_bool.
    split; [auto | intros [H|H]; [contradiction | exact H]].
Qed.

Lemma parseInt_double_zero : inRange (JS.parseInt "00").
Proof. exists 0%Z. split; [reflexivity | lia]. Qed.

(** Both validations in terms of [parseInt]: a token is accepted exactly
    when it is "00" or [parseInt] reads from it an integer between 0 and
    36. *)
Theorem validation_accepts_iff (token : string) :
  (V4.isValidRouletteNumber token = true <->
     token = "00" \/ inRange (JS.parseInt token)) /\
  (Legacy.inlineValid token = true <->
     token = "00" \/ inRange (JS.parseInt token)).
Proof.
  split; [apply isValidRouletteNumber_inRange|].
  rewrite inlineValid_inRange. split; [auto|].
  intros [->|H]; [apply parseInt_double_zero | exact H].
Qed.

(** C1, the claim as written fails: on a EUROPEAN table the resolver of the
    specification rejects "00", and both scripts accept it. *)
Lemma double_zero_accepted_on_european_table :
  spec_accepts EUROPEAN "00" = false /\
  V4.isValidRouletteNumber "00" = true /\
  Legacy.inlineValid "00" = true.
Proof. repeat split; reflexivity. Qed.

(** *** The validation inside the input handlers *)

Ltac split_ifs :=
  repeat (exec;
    match goal with
    | |- context [if ?c then _ else _] => destruct c eqn:?
    | |- context [match ?c with Some _ => _ | None => _ end] => destruct c eqn:?
    | |- context [match ?c with Rejected => _ | Responded _ _ => _ end] => destruct c eqn:?
    end);
  exec.

Ltac log_suffix :=
  unfold effectsAfter; cbn [log]; rewrite <- ?app_assoc;
  first [rewrite drop_app_length | rewrite drop_all].

Lemma V4_addWarmupNumber_invalid (w : World V4.AppState) :
  JS.trim (warmupInput_value (doc w)) <> "" ->
  V4.isValidRouletteNumber (JS.trim (warmupInput_value (doc w))) = false ->
  run V4.addWarmupNumber w =
    mkWorld (appState w) (set_warmupInput "" (doc w)) (arrays w)
            (log w ++ [Toast "Numero invalido! Use 0-36" "error"; Focus "warmupInput"]).
Proof.
  intros Hne Hinv. destruct w as [s d a l]. cbn [doc] in *.
  unfold V4.addWarmupNumber. exec.
  destruct (String.eqb_spec (JS.trim (warmupInput_value d)) "") as [E|_]; [contradiction|].
  rewrite Hinv. exec. rewrite <- app_assoc. reflexivity.
Qed.

Lemma V4_processSpin_invalid (w : World V4.AppState) r :
  JS.trim (numberInput_value (doc w)) <> "" ->
  V4.isValidRouletteNumber (JS.trim (numberInput_value (doc w))) = false ->
  run (V4.processSpin r) w =
    mkWorld (appState w) (set_numberInput "" (doc w)) (arrays w)
            (log w ++ [Toast "Numero invalido! Use 0-36" "error"; Focus "numberInput"]).
Proof.
  intros Hne Hinv. destruct w as [s d a l]. cbn [doc] in *.
  unfold V4.processSpin. exec.
  destruct (String.eqb_spec (JS.trim (numberInput_value d)) "") as [E|_]; [contradiction|].
  rewrite Hinv. exec. rewrite <- app_assoc. reflexivity.
Qed.

Lemma Legacy_addWarmupNumber_invalid (w : World Legacy.state) :
  JS.trim (warmupInput_value (doc w)) <> "" ->
  Legacy.inlineValid (JS.trim (warmupInput_value (doc w))) = false ->
  run Legacy.addWarmupNumber w =
    mkWorld (appState w) (set_warmupInput "" (doc w)) (arrays w)
            (log w ++ [Toast "Número inválido! Use 0-36" "error"; Focus "warmupInput"]).
Proof.
  intros Hne Hinv. destruct w as [s d a l]. cbn [doc] in *.
  unfold Legacy.addWarmupNumber. exec.
  destruct (String.eqb_spec (JS.trim (warmupInput_value d)) "") as [E|_]; [contradiction|].
  rewrite Hinv. exec. rewrite <- app_assoc. reflexivity.
Qed.

Lemma Legacy_processSpin_invalid (w : World Legacy.state) r :
  JS.trim (numberInput_value (doc w)) <> "" ->
  Legacy.inlineValid (JS.trim (numberInput_value (doc w))) = false ->
  run (Legacy.processSpin r) w =
    mkWorld (appState w) (set_numberInput "" (doc w)) (arrays w)
            (log w ++ [Toast "Número inválido! Use 0-36" "error"; Focus "numberInput"]).
Proof.
  intros Hne Hinv. destruct w as [s d a l]. cbn [doc] in *.
  unfold Legacy.processSpin. exec.
  destruct (String.eqb_spec (JS.trim (numberInput_value d)) "") as [E|_]; [contradiction|].
  rewrite Hinv. exec. rewrite <- app_assoc. reflexivity.
Qed.

Ltac requests_suffix :=
  log_suffix; unfold requests; cbn [omap list_omap request_of app].

Lemma V4_addWarmupNumber_valid (w : World V4.AppState) :
  let num := JS.trim (warmupInput_value (doc w)) in
  num <> "" ->
  V4.isValidRouletteNumber num = true ->
  V4.warmupNumbers (appState (run V4.addWarmupNumber w)) =
    if (12 <=? length (V4.warmupNumbers (appState w)))%nat
    then V4.warmupNumbers (appState w)
    else (V4.warmupNumbers (appState w) ++ [num])%list.
Proof.
  intros num Hne Hv. subst num. destruct w as [s d a l]. cbn [doc appState] in *.
  unfold V4.addWarmupNumber, V4.updateWarmupDisplay. exec. rewrite Hv.
  destruct (String.eqb_spec (JS.trim (warmupInput_value d)) "") as [E|_]; [contradiction|].
  split_ifs; reflexivity.
Qed.

Lemma Legacy_addWarmupNumber_valid (w : World Legacy.state) :
  let num := JS.trim (warmupInput_value (doc w)) in
  num <> "" ->
  Legacy.inlineValid num = true ->
  Legacy.warmupNumbers (appState (run Legacy.addWarmupNumber w)) =
    if (12 <=? length (Legacy.warmupNumbers (appState w)))%nat
    then Legacy.warmupNumbers (appState w)
    else (Legacy.warmupNumbers (appState w) ++ [num])%list.
Proof.
  intros num Hne Hv. subst num. destruct w as [s d a l]. cbn [doc appState] in *.
  unfold Legacy.addWarmupNumber, Legacy.updateWarmupDisplay. exec. rewrite Hv.
  destruct (String.eqb_spec (JS.trim (warmupInput_value d)) "") as [E|_]; [contradiction|].
  split_ifs; reflexivity.
Qed.

Lemma V4_processSpin_valid (w : World V4.AppState) r :
  let num := JS.trim (numberInput_value (doc w)) in
  num <> "" ->
  V4.isValidRouletteNumber num = true ->
  requests (effectsAfter w (run (V4.processSpin r) w)) = [("/api/spin", SpinBody num)].
Proof.
  intros num Hne Hv. subst num. destruct w as [s d a l]. cbn [doc] in *.
  unfold V4.processSpin, V4.apiRequest, V4.receive, V4.updateGameDisplay,
    V4.updateHistory, V4.updateBankrollDisplay, V4.updateLastNumber,
    V4.updateAction, V4.updateSignals, V4.updateHotCold.
  exec. rewrite Hv.
  destruct (String.eqb_spec (JS.trim (numberInput_value d)) "") as [E|_]; [contradiction|].
  split_ifs; requests_suffix; reflexivity.
Qed.

Lemma Legacy_processSpin_valid (w : World Legacy.state) r :
  let num := JS.trim (numberInput_value (doc w)) in
  num <> "" ->
  Legacy.inlineValid num = true ->
  requests (effectsAfter w (run (Legacy.processSpin r) w)) = [("/api/spin", SpinBody num)].
Proof.
  intros num Hne Hv. subst num. destruct w as [s d a l]. cbn [doc] in *.
  unfold Legacy.processSpin, Legacy.receive, Legacy.updateGameDisplay,
    Legacy.updateHistory, Legacy.onError, Legacy.updateAction,
    Legacy.updateSignals, Legacy.updateHotCold.
  exec. rewrite Hv.
  destruct (String.eqb_spec (JS.trim (numberInput_value d)) "") as [E|_]; [contradiction|].
  split_ifs; requests_suffix; reflexivity.
Qed.

(** *** The tokens named by the specification *)

Lemma tokenChecks_below_37 n : n <= 36 -> tokenChecks n = true.
Proof. apply below_37. vm_compute. reflexivity. Qed.

Lemma canonical_token n :
  n <= 36 ->
  let tok := JS.toString n in
  JS.trim tok = tok /\ tok <> "" /\
  V4.isValidRouletteNumber tok = true /\ Legacy.inlineValid tok = true /\
  JS.parseInt tok = Some (Z.of_nat n).
Proof.
  intros Hn tok. pose proof (tokenChecks_below_37 n Hn) as H.
  unfold tokenChecks in H. fold tok in H.
  rewrite !andb_true_iff, negb_true_iff in H.
  destruct H as ((((Ht & Hne) & Hv) & Hl) & Hp).
  apply String.eqb_eq in Ht. apply String.eqb_neq in Hne.
  destruct (JS.parseInt tok) as [v|]; [|discriminate].
  apply Z.eqb_eq in Hp. subst v. auto.
Qed.

Lemma rejected_token tok :
  In tok ["37"; "-1"; "abc"] ->
  JS.trim tok = tok /\ tok <> "" /\
  V4.isValidRouletteNumber tok = false /\ Legacy.inlineValid tok = false.
Proof.
  intros [<-|[<-|[<-|[]]]]; repeat split; try reflexivity; discriminate.
Qed.

(** C2: "37", "-1" and "abc" fail the validation of both scripts, and
    whatever the world, the warmup and spin handlers answer them with the
    invalid-number message, clear the input and change nothing else; every
    token "0".."36" passes the validation of both scripts, and whatever the
    world the spin handlers send it and the warmup handlers append it to a
    list of fewer than 12. *)
Theorem named_tokens_rejected_and_accepted :
  (forall tok, In tok ["37"; "-1"; "abc"] ->
     V4.isValidRouletteNumber tok = false /\
     Legacy.inlineValid tok = false /\
     (forall w : World V4.AppState, warmupInput_value (doc w) = tok ->
        run V4.addWarmupNumber w =
          mkWorld (appState w) (set_warmupInput "" (doc w)) (arrays w)
            (log w ++ [Toast "Numero invalido! Use 0-36" "error";
                       Focus "warmupInput"])) /\
     (forall (w : World V4.AppState) r, numberInput_value (doc w) = tok ->
        run (V4.processSpin r) w =
          mkWorld (appState w) (set_numberInput "" (doc w)) (arrays w)
            (log w ++ [Toast "Numero invalido! Use 0-36" "error";
                       Focus "numberInput"])) /\
     (forall w : World Legacy.state, warmupInput_value (doc w) = tok ->
        run Legacy.addWarmupNumber w =
          mkWorld (appState w) (set_warmupInput "" (doc w)) (arrays w)
            (log w ++ [Toast "Número inválido! Use 0-36" "error";
                       Focus "warmupInput"])) /\
     (forall (w : World Legacy.state) r, numberInput_value (doc w) = tok ->
        run (Legacy.processSpin r) w =
          mkWorld (appState w) (set_numberInput "" (doc w)) (arrays w)
            (log w ++ [Toast "Número inválido! Use 0-36" "error";
                       Focus "numberInput"]))) /\
  (forall n, n <= 36 ->
     let tok := JS.toString n in
     V4.isValidRouletteNumber tok = true /\
     Legacy.inlineValid tok = true /\
     (forall w : World V4.AppState, warmupInput_value (doc w) = tok ->
        length (V4.warmupNumbers (appState w)) < 12 ->
        V4.warmupNumbers (appState (run V4.addWarmupNumber w)) =
          (V4.warmupNumbers (appState w) ++ [tok])%list) /\
     (forall (w : World V4.AppState) r, numberInput_value (doc w) = tok ->
        requests (effectsAfter w (run (V4.processSpin r) w)) =
          [("/api/spin", SpinBody tok)]) /\
     (forall w : World Legacy.state, warmupInput_value (doc w) = tok ->
        length (Legacy.warmupNumbers (appState w)) < 12 ->
        Legacy.warmupNumbers (appState (run Legacy.addWarmupNumber w)) =
          (Legacy.warmupNumbers (appState w) ++ [tok])%list) /\
     (forall (w : World Legacy.state) r, numberInput_value (doc w) = tok ->
        requests (effectsAfter w (run (Legacy.processSpin r) w)) =
          [("/api/spin", SpinBody tok)])).
Proof.
  split.
  - intros tok Htok.
    destruct (rejected_token tok Htok) as (Ht & Hne & Hv & Hl).
    split; [exact Hv|]. split; [exact Hl|].
    repeat split; intros w; intros.
    + apply V4_addWarmupNumber_invalid; congruence.
    + apply V4_processSpin_invalid; congruence.
    + apply Legacy_addWarmupNumber_invalid; congruence.
    + apply Legacy_processSpin_invalid; congruence.
  - intros n Hn tok.
    destruct (canonical_token n Hn) as (Ht & Hne & Hv & Hl & _). fold tok in Ht, Hne, Hv, Hl.
    split; [exact Hv|]. split; [exact Hl|].
    repeat split.
    + intros w Hw Hlen.
      rewrite V4_addWarmupNumber_valid by (rewrite Hw, Ht; assumption).
      rewrite Hw, Ht.
      destruct (Nat.leb_spec 12 (length (V4.warmupNumbers (appState w)))); [lia | reflexivity].
    + intros w r Hw.
      rewrite V4_processSpin_valid by (rewrite Hw, Ht; assumption).
      rewrite Hw, Ht. reflexivity.
    + intros w Hw Hlen.
      rewrite Legacy_addWarmupNumber_valid by (rewrite Hw, Ht; assumption).
      rewrite Hw, Ht.
      destruct (Nat.leb_spec 12 (length (Legacy.warmupNumbers (appState w)))); [lia | reflexivity].
    + intros w r Hw.
      rewrite Legacy_processSpin_valid by (rewrite Hw, Ht; assumption).
      rewrite Hw, Ht. reflexivity.
Qed.

(** The token "37" and the token of 17, the latter typed on the game screen. *)
Lemma named_tokens_witness :
  In "37" ["37"; "-1"; "abc"] /\
  V4.isValidRouletteNumber "37" = false /\
  Legacy.inlineValid "37" = false /\
  17 <= 36 /\
  V4.isValidRouletteNumber (JS.toString 17) = true /\
  Legacy.inlineValid (JS.toString 17) = true /\
  numberInput_value (doc spinWorld) = JS.toString 17 /\
  requests (effectsAfter spinWorld (run (V4.processSpin okResponse) spinWorld)) =
    [("/api/spin", SpinBody (JS.toString 17))].
Proof.
  destruct named_tokens_rejected_and_accepted as [Hrej Hacc].
  assert (Hin : In "37" ["37"; "-1"; "abc"]) by (left; reflexivity).
  assert (Hle : 17 <= 36) by lia.
  assert (Hw : numberInput_value (doc spinWorld) = JS.toString 17) by reflexivity.
  destruct (Hrej "37" Hin) as (H1 & H2 & _).
  destruct (Hacc 17 Hle) as (H3 & H4 & _ & Hspin & _).
  split; [exact Hin|]. split; [exact H1|]. split; [exact H2|].
  split; [exact Hle|]. split; [exact H3|]. split; [exact H4|].
  split; [exact Hw|]. exact (Hspin spinWorld okResponse Hw).
Defined.

(** *** Colours *)



Lemma color_eqb_eq a b : color_eqb a b = true -> a = b.
Proof. destruct a, b; simpl; congruence. Qed.



(** *** The two [getNumberColor] *)

Lemma elem_of_canonical_tokens tok :
  In tok canonical_tokens -> tok = "00" \/ exists n, n <= 36 /\ tok = JS.toString n.
Proof.
  unfold canonical_tokens. rewrite in_app_iff, in_map_iff.
  intros [(n & <- & Hn)|[<-|[]]]; [right|left; reflexivity].
  apply in_seq in Hn. exists n. split; [lia | reflexivity].
Qed.

(** C10: on each of the tokens "0", ..., "36" and "00" the two scripts
    compute the same colour. *)
Theorem getNumberColor_versions_agree (tok : string) :
  In tok canonical_tokens -> V4.getNumberColor tok = Legacy.getNumberColor tok.
Proof.
  intros H. apply elem_of_canonical_tokens in H as [->|(n & Hn & ->)].
  - reflexivity.
  - apply color_eqb_eq. revert n Hn. apply (below_37 sameColor).
    vm_compute. reflexivity.
Qed.

(** Both scripts colour "23" alike. *)
Lemma getNumberColor_versions_agree_witness :
  In "23" canonical_tokens /\ V4.getNumberColor "23" = Legacy.getNumberColor "23".
Proof.
  assert (H : In "23" canonical_tokens) by (vm_compute; tauto).
  split; [exact H | apply (getNumberColor_versions_agree "23" H)].
Defined.

(** *** Warmup size *)

Lemma V4_startGame_wrong_size (w : World V4.AppState) r rStats :
  length (V4.warmupNumbers (appState w)) <> 12 ->
  run (V4.startGame r rStats) w =
    mkWorld (appState w) (doc w) (arrays w)
            (log w ++ [Toast "Insira exatamente 12 numeros" "error"]).
Proof.
  intros Hlen. destruct w as [s d a l]. cbn [appState] in *.
  unfold V4.startGame. exec.
  destruct (Nat.eqb_spec (length (V4.warmupNumbers s)) 12) as [E|_]; [contradiction|].
  reflexivity.
Qed.

Lemma V4_startGame_right_size (w : World V4.AppState) r rStats :
  length (V4.warmupNumbers (appState w)) = 12 ->
  requests (effectsAfter w (run (V4.startGame r rStats) w)) =
    ("/api/warmup", WarmupBody (V4.warmupNumbers (appState w))) ::
    (if succeeds r then [("/api/stats", NoBody)] else []).
Proof.
  intros Hlen. destruct w as [s d a l]. cbn [appState] in *.
  unfold V4.startGame, V4.apiRequest, V4.receive, V4.showScreen,
    V4.updateStats_send, V4.updateStats_resume, V4.receive, V4.updateHistory,
    V4.updateBankrollDisplay, V4.updateHotCold.
  exec. rewrite Hlen. cbn [Nat.eqb negb].
  destruct r as [|[] p]; cbn [succeeds].
  - exec. requests_suffix. reflexivity.
  - destruct (p_success p) eqn:Hs.
    + split_ifs; cbn [success] in *; try congruence; requests_suffix; reflexivity.
    + split_ifs; cbn [success] in *; try congruence; requests_suffix; reflexivity.
  - split_ifs; requests_suffix; reflexivity.
Qed.

Lemma V4_addWarmupNumber_full (w : World V4.AppState) :
  12 <= length (V4.warmupNumbers (appState w)) ->
  V4.warmupNumbers (appState (run V4.addWarmupNumber w)) =
    V4.warmupNumbers (appState w).
Proof.
  intros Hlen. destruct w as [s d a l]. cbn [appState] in *.
  unfold V4.addWarmupNumber. exec.
  split_ifs; first
    [ reflexivity
    | exfalso;
      match goal with
      | H : (12 <=? _)%nat = false |- _ => apply Nat.leb_gt in H; lia
      end ].
Qed.

(** C3: [startGame] with a list whose length is not 12 only shows the error
    message (no request, nothing else changes); with 12 numbers it sends the
    warmup request carrying that list, followed by the statistics request
    when the answer is a success; so every warmup request carries exactly
    12 numbers; and [addWarmupNumber] leaves a list of 12 or more as it is. *)
Theorem warmup_proceeds_with_exactly_12 (w : World V4.AppState) (r rStats : response) :
  let numbers := V4.warmupNumbers (appState w) in
  let sent := requests (effectsAfter w (run (V4.startGame r rStats) w)) in
  (length numbers <> 12 ->
     run (V4.startGame r rStats) w =
       mkWorld (appState w) (doc w) (arrays w)
               (log w ++ [Toast "Insira exatamente 12 numeros" "error"]) /\
     sent = []) /\
  (length numbers = 12 ->
     sent = ("/api/warmup", WarmupBody numbers) ::
            (if succeeds r then [("/api/stats", NoBody)] else [])) /\
  (forall endpoint body,
     In (endpoint, WarmupBody body) sent -> length body = 12) /\
  (12 <= length numbers ->
     V4.warmupNumbers (appState (run V4.addWarmupNumber w)) = numbers).
Proof.
  intros numbers sent.
  assert (Hwrong : length numbers <> 12 -> sent = []).
  { intros H. subst sent. rewrite (V4_startGame_wrong_size w r rStats H).
    log_suffix. reflexivity. }
  split; [|split; [|split]].
  - intros H. split; [apply V4_startGame_wrong_size; exact H | auto].
  - apply V4_startGame_right_size.
  - intros endpoint body Hin.
    destruct (Nat.eq_dec (length numbers) 12) as [E|E].
    + subst sent. rewrite (V4_startGame_right_size w r rStats E) in Hin.
      destruct Hin as [Hin|Hin].
      * injection Hin as _ <-. exact E.
      * destruct (succeeds r); [destruct Hin as [Hin|[]]; discriminate | destruct Hin].
    + rewrite (Hwrong E) in Hin. destruct Hin.
  - apply V4_addWarmupNumber_full.
Qed.

(** *** Setup: bankroll and strategies *)

Lemma not_positive (b : spec_float) :
  falsy b || SFleb b positiveZero = negb (SFltb positiveZero b).
Proof. destruct b as [[]|[]| |[] m e]; reflexivity. Qed.

Lemma collectStrategies_lookup cbs (acc : gmap string bool) name v :
  foldl (fun acc cb => setProperty cb.1 cb.2 acc) acc cbs !! name = Some v ->
  In (name, v) cbs \/ acc !! name = Some v.
Proof.
  revert acc. induction cbs as [|[k x] cbs IH]; intros acc H; simpl in *.
  - right. exact H.
  - apply IH in H as [H|H]; [left; right; exact H|].
    unfold setProperty in H.
    destruct (String.eqb k "__proto__"); [right; exact H|].
    destruct (decide (k = name)) as [->|Hne].
    + rewrite lookup_insert_eq in H. injection H as ->. left. left. reflexivity.
    + rewrite lookup_insert_ne in H by exact Hne. right. exact H.
Qed.

Lemma hasActiveStrategy_checked cbs :
  hasActiveStrategy (collectStrategies cbs) = true ->
  exists name, In (name, true) cbs.
Proof.
  unfold hasActiveStrategy. rewrite existsb_exists.
  intros ([name v] & Hin & Hv). simpl in Hv. apply Bool.eqb_prop in Hv. subst v.
  apply list_elem_of_In, elem_of_map_to_list in Hin.
  apply collectStrategies_lookup in Hin as [Hin|Hin].
  - exists name. exact Hin.
  - rewrite lookup_empty in Hin. discriminate.
Qed.

Section SetupProofs.
Variable parseFloat : string -> spec_float.

Lemma V4_goToWarmup_bad_bankroll (w : World V4.AppState) r :
  SFltb positiveZero (parseFloat (bankroll_value (doc w))) = false ->
  run (V4.goToWarmup parseFloat r) w =
    mkWorld (appState w) (doc w) (arrays w)
      (log w ++ [Toast "Por favor, insira uma banca valida" "error";
                 Focus "bankroll"]).
Proof.
  intros Hb. destruct w as [s d a l]. cbn [doc] in *.
  unfold V4.goToWarmup. exec. rewrite not_positive, Hb. exec.
  rewrite <- app_assoc. reflexivity.
Qed.

Lemma V4_goToWarmup_no_strategy (w : World V4.AppState) r :
  SFltb positiveZero (parseFloat (bankroll_value (doc w))) = true ->
  hasActiveStrategy (collectStrategies (strategy_checkboxes (doc w))) = false ->
  run (V4.goToWarmup parseFloat r) w =
    mkWorld (appState w) (doc w) (arrays w)
      (log w ++ [Toast "Selecione pelo menos uma estrategia" "error"]).
Proof.
  intros Hb Hs. destruct w as [s d a l]. cbn [doc] in *.
  unfold V4.goToWarmup. exec. rewrite not_positive, Hb, Hs. exec.
  reflexivity.
Qed.

Lemma V4_goToWarmup_sends (w : World V4.AppState) r :
  let b := parseFloat (bankroll_value (doc w)) in
  let m := collectStrategies (strategy_checkboxes (doc w)) in
  SFltb positiveZero b = true ->
  hasActiveStrategy m = true ->
  requests (effectsAfter w (run (V4.goToWarmup parseFloat r) w)) =
    [("/api/initialize", InitializeBody b m)].
Proof.
  intros b m Hb Hs. subst b m. destruct w as [s d a l]. cbn [doc] in *.
  unfold V4.goToWarmup, V4.apiRequest, V4.receive, V4.showScreen.
  exec. rewrite not_positive, Hb, Hs. exec.
  split_ifs; requests_suffix; reflexivity.
Qed.

Lemma Legacy_goToWarmup_bad_bankroll (w : World Legacy.state) r :
  SFltb positiveZero (parseFloat (bankroll_value (doc w))) = false ->
  run (Legacy.goToWarmup parseFloat r) w =
    mkWorld (appState w) (doc w) (arrays w)
      (log w ++ [Toast "Por favor, insira uma banca válida" "error";
                 Focus "bankroll"]).
Proof.
  intros Hb. destruct w as [s d a l]. cbn [doc] in *.
  unfold Legacy.goToWarmup. exec. rewrite not_positive, Hb. exec.
  rewrite <- app_assoc. reflexivity.
Qed.

Lemma Legacy_goToWarmup_no_strategy (w : World Legacy.state) r :
  SFltb positiveZero (parseFloat (bankroll_value (doc w))) = true ->
  hasActiveStrategy (collectStrategies (strategy_checkboxes (doc w))) = false ->
  run (Legacy.goToWarmup parseFloat r) w =
    mkWorld (appState w) (doc w) (arrays w)
      (log w ++ [Toast "Selecione pelo menos uma estratégia" "error"]).
Proof.
  intros Hb Hs. destruct w as [s d a l]. cbn [doc] in *.
  unfold Legacy.goToWarmup. exec. rewrite not_positive, Hb, Hs. exec.
  reflexivity.
Qed.

Lemma Legacy_goToWarmup_sends (w : World Legacy.state) r :
  let b := parseFloat (bankroll_value (doc w)) in
  let m := collectStrategies (strategy_checkboxes (doc w)) in
  SFltb positiveZero b = true ->
  hasActiveStrategy m = true ->
  requests (effectsAfter w (run (Legacy.goToWarmup parseFloat r) w)) =
    [("/api/initialize", InitializeBody b m)].
Proof.
  intros b m Hb Hs. subst b m. destruct w as [s d a l]. cbn [doc] in *.
  unfold Legacy.goToWarmup, Legacy.receive, Legacy.showScreen, Legacy.onError.
  exec. rewrite not_positive, Hb, Hs. exec.
  split_ifs; requests_suffix; reflexivity.
Qed.
End SetupProofs.

(** C4: in both scripts [goToWarmup] sends the initialize request exactly
    when the parsed bankroll is greater than 0 and the object built from the
    checkboxes holds a [true], which takes a ticked checkbox; a bankroll that
    is not greater than 0 (NaN included) and a selection without a [true]
    each end in an error message alone, with no request and no other
    change. *)
Theorem goToWarmup_sends_only_valid_setup
    (parseFloat : string -> spec_float) (d : Document) (r : response)
    (s : V4.AppState) (sl : Legacy.state)
    (a al : gmap nat (list string)) (l ll : list effect) :
  let w := mkWorld s d a l in
  let wl := mkWorld sl d al ll in
  let b := parseFloat (bankroll_value d) in
  let m := collectStrategies (strategy_checkboxes d) in
  let sent := requests (effectsAfter w (run (V4.goToWarmup parseFloat r) w)) in
  let sentl := requests (effectsAfter wl (run (Legacy.goToWarmup parseFloat r) wl)) in
  (SFltb positiveZero b = true -> hasActiveStrategy m = true ->
     sent = [("/api/initialize", InitializeBody b m)] /\
     sentl = [("/api/initialize", InitializeBody b m)]) /\
  (sent <> [] \/ sentl <> [] ->
     SFltb positiveZero b = true /\ exists name, In (name, true) (strategy_checkboxes d)) /\
  (SFltb positiveZero b = false ->
     run (V4.goToWarmup parseFloat r) w =
       mkWorld s d a
         (l ++ [Toast "Por favor, insira uma banca valida" "error";
                    Focus "bankroll"]) /\
     run (Legacy.goToWarmup parseFloat r) wl =
       mkWorld sl d al
         (ll ++ [Toast "Por favor, insira uma banca válida" "error";
                     Focus "bankroll"])) /\
  (SFltb positiveZero b = true -> hasActiveStrategy m = false ->
     run (V4.goToWarmup parseFloat r) w =
       mkWorld s d a
         (l ++ [Toast "Selecione pelo menos uma estrategia" "error"]) /\
     run (Legacy.goToWarmup parseFloat r) wl =
       mkWorld sl d al
         (ll ++ [Toast "Selecione pelo menos uma estratégia" "error"])).
Proof.
  intros w wl b m sent sentl.
  assert (Hbad : SFltb positiveZero b = false -> sent = [] /\ sentl = []).
  { intros Hb. subst sent sentl.
    rewrite (V4_goToWarmup_bad_bankroll parseFloat w r Hb).
    rewrite (Legacy_goToWarmup_bad_bankroll parseFloat wl r Hb).
    split; log_suffix; reflexivity. }
  assert (Hnone : SFltb positiveZero b = true -> hasActiveStrategy m = false ->
                  sent = [] /\ sentl = []).
  { intros Hb Hs. subst sent sentl.
    rewrite (V4_goToWarmup_no_strategy parseFloat w r Hb Hs).
    rewrite (Legacy_goToWarmup_no_strategy parseFloat wl r Hb Hs).
    split; log_suffix; reflexivity. }
  split; [|split; [|split]].
  - intros Hb Hs. split.
    + exact (V4_goToWarmup_sends parseFloat w r Hb Hs).
    + exact (Legacy_goToWarmup_sends parseFloat wl r Hb Hs).
  - intros Hsent.
    destruct (SFltb positiveZero b) eqn:Hb.
    + split; [reflexivity|].
      destruct (hasActiveStrategy m) eqn:Hs.
      * apply hasActiveStrategy_checked. exact Hs.
      * destruct (Hnone eq_refl eq_refl) as [H1 H2].
        destruct Hsent; contradiction.
    + destruct (Hbad eq_refl) as [H1 H2]. destruct Hsent; contradiction.
  - intros Hb. split.
    + exact (V4_goToWarmup_bad_bankroll parseFloat w r Hb).
    + exact (Legacy_goToWarmup_bad_bankroll parseFloat wl r Hb).
  - intros Hb Hs. split.
    + exact (V4_goToWarmup_no_strategy parseFloat w r Hb Hs).
    + exact (Legacy_goToWarmup_no_strategy parseFloat wl r Hb Hs).
Qed.

(** *** Rejected calls and the client state *)

Lemma V4_processSpin_state (w : World V4.AppState) r :
  appState (run (V4.processSpin r) w) = appState w.
Proof.
  destruct w as [s d a l].
  unfold V4.processSpin, V4.apiRequest, V4.receive, V4.updateGameDisplay,
    V4.updateHistory, V4.updateBankrollDisplay, V4.updateLastNumber,
    V4.updateAction, V4.updateSignals, V4.updateHotCold.
  split_ifs; reflexivity.
Qed.

Lemma V4_startGame_rejected (w : World V4.AppState) r rStats :
  succeeds r = false ->
  appState (run (V4.startGame r rStats) w) = appState w.
Proof.
  intros Hr. destruct w as [s d a l].
  unfold V4.startGame, V4.apiRequest, V4.receive.
  destruct r as [|[] p]; cbn [succeeds] in Hr.
  - split_ifs; reflexivity.
  - split_ifs; cbn [success] in *; first [reflexivity | congruence].
  - split_ifs; reflexivity.
Qed.

Section RejectedSetup.
Variable parseFloat : string -> spec_float.

Lemma V4_goToWarmup_rejected (w : World V4.AppState) r :
  let b := parseFloat (bankroll_value (doc w)) in
  let m := collectStrategies (strategy_checkboxes (doc w)) in
  SFltb positiveZero b = true ->
  hasActiveStrategy m = true ->
  succeeds r = false ->
  appState (run (V4.goToWarmup parseFloat r) w) =
    V4.set_strategies m (V4.set_bankroll b (appState w)).
Proof.
  intros b m Hb Hs Hr. subst b m. destruct w as [s d a l]. cbn [doc] in *.
  unfold V4.goToWarmup, V4.apiRequest, V4.receive.
  exec. rewrite not_positive, Hb, Hs. exec.
  destruct r as [|[] p]; cbn [succeeds] in Hr.
  - split_ifs; reflexivity.
  - split_ifs; cbn [success] in *; first [reflexivity | congruence].
  - split_ifs; reflexivity.
Qed.

Lemma Legacy_goToWarmup_rejected (w : World Legacy.state) r :
  let b := parseFloat (bankroll_value (doc w)) in
  let m := collectStrategies (strategy_checkboxes (doc w)) in
  SFltb positiveZero b = true ->
  hasActiveStrategy m = true ->
  succeedsLegacy r = false ->
  appState (run (Legacy.goToWarmup parseFloat r) w) =
    Legacy.set_strategies m (Legacy.set_bankroll b (appState w)).
Proof.
  intros b m Hb Hs Hr. subst b m. destruct w as [s d a l]. cbn [doc] in *.
  unfold Legacy.goToWarmup, Legacy.receive, Legacy.onError.
  exec. rewrite not_positive, Hb, Hs. exec.
  destruct r as [|ok p]; cbn [succeedsLegacy] in Hr.
  - split_ifs; reflexivity.
  - split_ifs; cbn [success] in *; first [reflexivity | congruence].
Qed.
End RejectedSetup.

(** C5, as amended: a spin call never changes the client state; a warmup
    call rejected for its size or by the answer leaves it unchanged; an
    initialize call rejected by the local checks leaves it unchanged; an
    initialize call that passed the local checks and was rejected by the
    answer leaves [warmupNumbers] and [initialized] (and the screen)
    unchanged and has stored the submitted bankroll and strategies. *)
Theorem rejected_calls_and_client_state
    (parseFloat : string -> spec_float) (r rStats : response)
    (w : World V4.AppState) (wl : World Legacy.state) :
  let b := parseFloat (bankroll_value (doc w)) in
  let m := collectStrategies (strategy_checkboxes (doc w)) in
  let bl := parseFloat (bankroll_value (doc wl)) in
  let ml := collectStrategies (strategy_checkboxes (doc wl)) in
  appState (run (V4.processSpin r) w) = appState w /\
  (length (V4.warmupNumbers (appState w)) <> 12 \/ succeeds r = false ->
     appState (run (V4.startGame r rStats) w) = appState w) /\
  (SFltb positiveZero b = false \/ hasActiveStrategy m = false ->
     appState (run (V4.goToWarmup parseFloat r) w) = appState w) /\
  (SFltb positiveZero bl = false \/ hasActiveStrategy ml = false ->
     appState (run (Legacy.goToWarmup parseFloat r) wl) = appState wl) /\
  (SFltb positiveZero b = true -> hasActiveStrategy m = true ->
   succeeds r = false ->
     appState (run (V4.goToWarmup parseFloat r) w) =
       V4.mkAppState b m (V4.warmupNumbers (appState w))
                     (V4.initialized (appState w))
                     (V4.currentScreen (appState w))) /\
  (SFltb positiveZero bl = true -> hasActiveStrategy ml = true ->
   succeedsLegacy r = false ->
     appState (run (Legacy.goToWarmup parseFloat r) wl) =
       Legacy.mkState bl ml (Legacy.warmupNumbers (appState wl))
                      (Legacy.initialized (appState wl))).
Proof.
  intros b m bl ml.
  split; [apply V4_processSpin_state|].
  split.
  { intros [H|H].
    - rewrite V4_startGame_wrong_size by exact H. reflexivity.
    - apply V4_startGame_rejected. exact H. }
  split.
  { intros [H|H].
    - rewrite V4_goToWarmup_bad_bankroll by exact H. reflexivity.
    - destruct (SFltb positiveZero b) eqn:Hb.
      + rewrite V4_goToWarmup_no_strategy by assumption. reflexivity.
      + rewrite V4_goToWarmup_bad_bankroll by exact Hb. reflexivity. }
  split.
  { intros [H|H].
    - rewrite Legacy_goToWarmup_bad_bankroll by exact H. reflexivity.
    - destruct (SFltb positiveZero bl) eqn:Hb.
      + rewrite Legacy_goToWarmup_no_strategy by assumption. reflexivity.
      + rewrite Legacy_goToWarmup_bad_bankroll by exact Hb. reflexivity. }
  split.
  - intros Hb Hs Hr. rewrite V4_goToWarmup_rejected by assumption. reflexivity.
  - intros Hb Hs Hr. rewrite Legacy_goToWarmup_rejected by assumption. reflexivity.
Qed.

(** C5, the claim as written fails: with 100 typed as bankroll and a
    strategy ticked, an initialize call whose request is rejected leaves a
    client state different from the one before the call (the bankroll is
    100 instead of 0), in both scripts. *)
Lemma rejected_initialize_changes_state :
  succeeds Rejected = false /\
  appState (run (V4.goToWarmup parseFloat_integers Rejected) sampleWorld)
    <> appState sampleWorld /\
  appState (run (Legacy.goToWarmup parseFloat_integers Rejected) sampleLegacyWorld)
    <> appState sampleLegacyWorld.
Proof.
  split; [reflexivity|]. split; intros H.
  - apply (f_equal V4.bankroll) in H. vm_compute in H. discriminate.
  - apply (f_equal Legacy.bankroll) in H. vm_compute in H. discriminate.
Qed.

(** *** The history window *)

Lemma sliceFrom_last {A} (k : nat) (l : list A) :
  0 < k -> sliceFrom (- Z.of_nat k) l = drop (length l - k) l.
Proof.
  intros Hk. unfold sliceFrom.
  destruct (Z.ltb_spec (- Z.of_nat k) 0) as [_|H]; [|lia].
  f_equal. lia.
Qed.

Lemma last_window {A} (l : list A) :
  rev (sliceFrom (-20) l) = take (min 20 (length l)) (rev l).
Proof.
  change (-20)%Z with (- Z.of_nat 20)%Z. rewrite sliceFrom_last by lia.
  rewrite firstn_rev. do 2 f_equal. lia.
Qed.

Lemma shown_V4_items (l : list string) : snd <$> (V4.historyItem <$> l) = l.
Proof. induction l as [|x l IH]; [reflexivity | cbn; f_equal; exact IH]. Qed.

Lemma shown_Legacy_items (l : list string) : snd <$> (Legacy.historyItem <$> l) = l.
Proof. induction l as [|x l IH]; [reflexivity | cbn; f_equal; exact IH]. Qed.

Lemma fresh_lookup_ne (a : gmap nat (list string)) r x :
  a !! r = Some x -> fresh (dom a) <> r.
Proof.
  intros H E. apply (is_fresh (dom a)). rewrite E.
  apply elem_of_dom. exists x. exact H.
Qed.

Lemma V4_updateHistory_window (w : World V4.AppState) h (l : list string) :
  arrays w !! h = Some l ->
  let w' := run (V4.updateHistory (Some h)) w in
  (forall r x, arrays w !! r = Some x -> arrays w' !! r = Some x) /\
  exists e, log w' = (log w ++ [e])%list /\
            shownNumbers e = take (min 20 (length l)) (rev l).
Proof.
  intros Hh. destruct w as [s d a lg]. cbn [arrays] in Hh.
  unfold V4.updateHistory. exec. rewrite Hh. cbn [default from_option id].
  destruct l as [|x l]; cbn [length Nat.eqb]; exec.
  - split; [auto|]. eexists. split; reflexivity.
  - split.
    + intros r y Hr. pose proof (fresh_lookup_ne a r y Hr) as Hne.
      rewrite !lookup_insert_ne by exact Hne. exact Hr.
    + eexists. split; [reflexivity|].
      cbn [shownNumbers]. rewrite shown_V4_items, !lookup_insert_eq.
      cbn [default from_option id]. rewrite Hh. cbn [default from_option id].
      exact (last_window (x :: l)).
Qed.

Lemma Legacy_updateHistory_window (w : World Legacy.state) h (l : list string) :
  arrays w !! h = Some l ->
  let w' := run (Legacy.updateHistory (Some h)) w in
  (forall r x, arrays w !! r = Some x -> arrays w' !! r = Some x) /\
  exists e, log w' = (log w ++ [e])%list /\
            shownNumbers e = take (min 20 (length l)) (rev l).
Proof.
  intros Hh. destruct w as [s d a lg]. cbn [arrays] in Hh.
  unfold Legacy.updateHistory. exec. rewrite Hh. cbn [default from_option id].
  destruct l as [|x l]; cbn [length Nat.eqb]; exec.
  - split; [auto|]. eexists. split; reflexivity.
  - split.
    + intros r y Hr. pose proof (fresh_lookup_ne a r y Hr) as Hne.
      rewrite !lookup_insert_ne by exact Hne. exact Hr.
    + eexists. split; [reflexivity|].
      cbn [shownNumbers]. rewrite shown_Legacy_items, !lookup_insert_eq.
      cbn [default from_option id]. rewrite Hh. cbn [default from_option id].
      exact (last_window (x :: l)).
Qed.

(** C7: in both scripts, [updateHistory] on a history array holding [l]
    adds one write to the page, showing the first min(20, length l) numbers
    of [l] read from its end (the last ones, the most recent first), and
    leaves the history array, like every array that existed, with the
    contents it had. *)
Theorem updateHistory_shows_last_20
    (w : World V4.AppState) (wl : World Legacy.state) (h : nat) (l : list string) :
  (arrays w !! h = Some l ->
     let w' := run (V4.updateHistory (Some h)) w in
     arrays w' !! h = Some l /\
     (forall r x, arrays w !! r = Some x -> arrays w' !! r = Some x) /\
     exists e, log w' = (log w ++ [e])%list /\
       shownNumbers e = take (min 20 (length l)) (rev l) /\
       length (shownNumbers e) = min 20 (length l)) /\
  (arrays wl !! h = Some l ->
     let w' := run (Legacy.updateHistory (Some h)) wl in
     arrays w' !! h = Some l /\
     (forall r x, arrays wl !! r = Some x -> arrays w' !! r = Some x) /\
     exists e, log w' = (log wl ++ [e])%list /\
       shownNumbers e = take (min 20 (length l)) (rev l) /\
       length (shownNumbers e) = min 20 (length l)).
Proof.
  assert (Hlen : length (take (min 20 (length l)) (rev l)) = min 20 (length l)).
  { rewrite length_take, length_rev. lia. }
  split; intros Hh w'.
  - destruct (V4_updateHistory_window w h l Hh) as (Hkeep & e & Hlog & Hshown).
    split; [apply Hkeep; exact Hh|]. split; [exact Hkeep|].
    exists e. split; [exact Hlog|]. split; [exact Hshown|].
    rewrite Hshown. exact Hlen.
  - destruct (Legacy_updateHistory_window wl h l Hh) as (Hkeep & e & Hlog & Hshown).
    split; [apply Hkeep; exact Hh|]. split; [exact Hkeep|].
    exists e. split; [exact Hlog|]. split; [exact Hshown|].
    rewrite Hshown. exact Hlen.
Qed.

(** *** Reset *)

Lemma V4_executeReset_state (w : World V4.AppState) r :
  succeeds r = true ->
  appState (run (V4.executeReset r) w) =
    V4.mkAppState positiveZero ∅ [] false
      (match screens (doc w) !! "setupScreen" with
       | Some _ => "setup"
       | None => V4.currentScreen (appState w)
       end).
Proof.
  intros Hr. destruct w as [s d a l]. cbn [doc appState].
  destruct r as [|[] p]; cbn [succeeds] in Hr; try discriminate.
  unfold V4.executeReset, V4.apiRequest, V4.receive, V4.showScreen.
  exec. destruct (p_history p); exec; cbn [success]; rewrite Hr; exec;
    unfold set_screens; cbn [screens]; rewrite lookup_fmap;
    destruct (screens d !! "setupScreen"); reflexivity.
Qed.

(** C8: after a successful [executeReset], whatever the world before it,
    the bankroll is 0, the strategies and the warmup list are empty and
    [initialized] is false; and on a page that has the setup screen the
    whole state, current screen included, is the initial one. *)
Theorem executeReset_restores_fresh_state (w : World V4.AppState) (r : response) :
  succeeds r = true ->
  let s' := appState (run (V4.executeReset r) w) in
  V4.bankroll s' = positiveZero /\
  V4.strategies s' = ∅ /\
  V4.warmupNumbers s' = [] /\
  V4.initialized s' = false /\
  (is_Some (screens (doc w) !! "setupScreen") -> s' = V4.initialAppState).
Proof.
  intros Hr s'. subst s'. rewrite (V4_executeReset_state w r Hr).
  repeat split. intros [x Hx]. rewrite Hx. reflexivity.
Qed.

(** *** The warmup list *)

Lemma V4_addWarmupNumber_numbers (w : World V4.AppState) :
  let num := JS.trim (warmupInput_value (doc w)) in
  let old := V4.warmupNumbers (appState w) in
  V4.warmupNumbers (appState (run V4.addWarmupNumber w)) = old \/
  (V4.isValidRouletteNumber num = true /\ length old < 12 /\
   V4.warmupNumbers (appState (run V4.addWarmupNumber w)) = (old ++ [num])%list).
Proof.
  intros num old. subst num old. destruct w as [s d a l]. cbn [doc appState].
  unfold V4.addWarmupNumber, V4.updateWarmupDisplay.
  split_ifs; try (left; reflexivity).
  all: right; repeat split;
    try (match goal with H : negb _ = false |- _ => apply negb_false_iff in H; exact H end);
    try (match goal with H : (12 <=? _)%nat = false |- _ => apply Nat.leb_gt in H; exact H end).
Qed.

Lemma V4_removeWarmupNumber_numbers (w : World V4.AppState) index :
  V4.warmupNumbers (appState (run (V4.removeWarmupNumber index) w)) =
    splice1 index (V4.warmupNumbers (appState w)).
Proof.
  destruct w as [s d a l].
  unfold V4.removeWarmupNumber, V4.updateWarmupDisplay. split_ifs; reflexivity.
Qed.

Lemma V4_clearWarmup_numbers (w : World V4.AppState) :
  V4.warmupNumbers (appState (run V4.clearWarmup w)) = [].
Proof.
  destruct w as [s d a l].
  unfold V4.clearWarmup, V4.updateWarmupDisplay. split_ifs; reflexivity.
Qed.

Lemma splice1_invariant index l :
  warmupInvariant l -> warmupInvariant (splice1 index l).
Proof.
  intros [Hlen Hall]. unfold splice1.
  set (k := if (index <? 0)%Z then _ else _).
  set (c := Z.min 1 _).
  split.
  - rewrite length_app, length_take, length_drop. lia.
  - apply Forall_app. split; [apply Forall_take | apply Forall_drop]; exact Hall.
Qed.

Lemma warmupStep_invariant c (w : World V4.AppState) :
  warmupInvariant (V4.warmupNumbers (appState w)) ->
  warmupInvariant (V4.warmupNumbers (appState (run (warmupStep c) w))).
Proof.
  intros Hinv. destruct c as [typed|index|]; cbn [warmupStep].
  - destruct w as [s d a l].
    replace (run _ _) with
      (run V4.addWarmupNumber (mkWorld s (set_warmupInput typed d) a l))
      by reflexivity.
    destruct (V4_addWarmupNumber_numbers (mkWorld s (set_warmupInput typed d) a l))
      as [->|(Hv & Hlt & ->)]; cbn [appState doc] in *; [exact Hinv|].
    destruct Hinv as [Hlen Hall]. split.
    + rewrite length_app. cbn [length]. lia.
    + apply Forall_app. split; [exact Hall|]. constructor; [exact Hv | constructor].
  - rewrite V4_removeWarmupNumber_numbers. apply splice1_invariant. exact Hinv.
  - rewrite V4_clearWarmup_numbers. split; [cbn; lia | constructor].
Qed.

Lemma run_then {St} (m k : M St unit) (w : World St) :
  run (m;; k) w = run k (run m w).
Proof. unfold run, mbind, M_bind. destruct (m w) as [[] w']. reflexivity. Qed.

Lemma warmupSteps_invariant cs (w : World V4.AppState) :
  warmupInvariant (V4.warmupNumbers (appState w)) ->
  warmupInvariant (V4.warmupNumbers (appState (run (warmupSteps cs) w))).
Proof.
  revert w. induction cs as [|c cs IH]; intros w Hinv.
  - exact Hinv.
  - cbn [warmupSteps]. rewrite run_then.
    apply IH, warmupStep_invariant, Hinv.
Qed.

(** C9: after any sequence of [addWarmupNumber], [removeWarmupNumber] and
    [clearWarmup] calls, started in a world whose warmup list is empty, the
    list has at most 12 elements and each of them passes
    [isValidRouletteNumber]. *)
Theorem warmup_list_invariant (cs : list warmupCall) (w : World V4.AppState) :
  V4.warmupNumbers (appState w) = [] ->
  let numbers := V4.warmupNumbers (appState (run (warmupSteps cs) w)) in
  length numbers <= 12 /\
  Forall (fun tok => V4.isValidRouletteNumber tok = true) numbers.
Proof.
  intros Hempty numbers. apply warmupSteps_invariant.
  rewrite Hempty. split; [cbn; lia | constructor].
Qed.

(** *** Instances *)

(** [startGame] with the twelve numbers, and with none. *)
Lemma warmup_proceeds_witness :
  length (V4.warmupNumbers (appState warmedWorld)) = 12 /\
  requests (effectsAfter warmedWorld (run (V4.startGame okResponse Rejected) warmedWorld)) =
    [("/api/warmup", WarmupBody twelveNumbers); ("/api/stats", NoBody)] /\
  length (V4.warmupNumbers (appState sampleWorld)) <> 12 /\
  requests (effectsAfter sampleWorld (run (V4.startGame okResponse Rejected) sampleWorld)) = [].
Proof.
  destruct (warmup_proceeds_with_exactly_12 warmedWorld okResponse Rejected)
    as (_ & Hsend & _).
  destruct (warmup_proceeds_with_exactly_12 sampleWorld okResponse Rejected)
    as (Hwrong & _).
  split; [reflexivity|]. split; [apply Hsend; reflexivity|].
  split; [discriminate|]. apply Hwrong. discriminate.
Defined.

(** A bankroll of 100 with a ticked strategy, and the bankroll "abc". *)
Lemma goToWarmup_sends_witness :
  SFltb positiveZero (parseFloat_integers (bankroll_value samplePage)) = true /\
  hasActiveStrategy (collectStrategies (strategy_checkboxes samplePage)) = true /\
  requests (effectsAfter sampleWorld
              (run (V4.goToWarmup parseFloat_integers okResponse) sampleWorld)) =
    [("/api/initialize",
      InitializeBody (parseFloat_integers "100")
                     (collectStrategies (strategy_checkboxes samplePage)))] /\
  SFltb positiveZero (parseFloat_integers (bankroll_value unparsablePage)) = false /\
  run (V4.goToWarmup parseFloat_integers okResponse)
      (mkWorld V4.initialAppState unparsablePage ∅ []) =
    mkWorld V4.initialAppState unparsablePage ∅
      [Toast "Por favor, insira uma banca valida" "error"; Focus "bankroll"].
Proof.
  destruct (goToWarmup_sends_only_valid_setup parseFloat_integers samplePage
              okResponse V4.initialAppState Legacy.initialState ∅ ∅ [] [])
    as (Hsend & _).
  destruct (goToWarmup_sends_only_valid_setup parseFloat_integers unparsablePage
              okResponse V4.initialAppState Legacy.initialState ∅ ∅ [] [])
    as (_ & _ & Hbad & _).
  assert (Hb : SFltb positiveZero (parseFloat_integers (bankroll_value samplePage)) = true)
    by reflexivity.
  assert (Hs : hasActiveStrategy (collectStrategies (strategy_checkboxes samplePage)) = true)
    by reflexivity.
  assert (Hn : SFltb positiveZero (parseFloat_integers (bankroll_value unparsablePage)) = false)
    by reflexivity.
  split; [exact Hb|]. split; [exact Hs|].
  split; [exact (proj1 (Hsend Hb Hs))|].
  split; [exact Hn|]. exact (proj1 (Hbad Hn)).
Defined.

(** An initialize call and a warmup call whose requests are rejected. *)
Lemma rejected_calls_witness :
  SFltb positiveZero (parseFloat_integers (bankroll_value samplePage)) = true /\
  hasActiveStrategy (collectStrategies (strategy_checkboxes samplePage)) = true /\
  succeeds Rejected = false /\
  appState (run (V4.goToWarmup parseFloat_integers Rejected) sampleWorld) =
    V4.mkAppState (parseFloat_integers "100")
      (collectStrategies (strategy_checkboxes samplePage)) [] false "setup" /\
  appState (run (V4.startGame Rejected Rejected) warmedWorld) = appState warmedWorld.
Proof.
  destruct (rejected_calls_and_client_state parseFloat_integers Rejected Rejected
              sampleWorld sampleLegacyWorld) as (_ & _ & _ & _ & Hremote & _).
  destruct (rejected_calls_and_client_state parseFloat_integers Rejected Rejected
              warmedWorld sampleLegacyWorld) as (_ & Hwarm & _).
  assert (Hb : SFltb positiveZero (parseFloat_integers (bankroll_value samplePage)) = true)
    by reflexivity.
  assert (Hs : hasActiveStrategy (collectStrategies (strategy_checkboxes samplePage)) = true)
    by reflexivity.
  assert (Hr : succeeds Rejected = false) by reflexivity.
  split; [exact Hb|]. split; [exact Hs|]. split; [exact Hr|].
  split; [exact (Hremote Hb Hs Hr)|].
  apply Hwarm. right. exact Hr.
Defined.

(** A history of 25 numbers keeps its contents in both scripts. *)
Lemma updateHistory_witness :
  arrays historyWorld !! 0 = Some longHistory /\
  arrays (run (V4.updateHistory (Some 0)) historyWorld) !! 0 = Some longHistory /\
  arrays historyLegacyWorld !! 0 = Some longHistory /\
  arrays (run (Legacy.updateHistory (Some 0)) historyLegacyWorld) !! 0 = Some longHistory.
Proof.
  destruct (updateHistory_shows_last_20 historyWorld historyLegacyWorld 0 longHistory)
    as (Hv4 & Hlegacy).
  assert (H1 : arrays historyWorld !! 0 = Some longHistory) by reflexivity.
  assert (H2 : arrays historyLegacyWorld !! 0 = Some longHistory) by reflexivity.
  split; [exact H1|]. split; [exact (proj1 (Hv4 H1))|].
  split; [exact H2|]. exact (proj1 (Hlegacy H2)).
Defined.

(** A successful reset of a world holding twelve warmup numbers. *)
Lemma executeReset_witness :
  succeeds okResponse = true /\
  is_Some (screens (doc warmedWorld) !! "setupScreen") /\
  appState (run (V4.executeReset okResponse) warmedWorld) = V4.initialAppState.
Proof.
  assert (Hr : succeeds okResponse = true) by reflexivity.
  assert (Hs : is_Some (screens (doc warmedWorld) !! "setupScreen"))
    by (exists true; reflexivity).
  destruct (executeReset_restores_fresh_state warmedWorld okResponse Hr)
    as (_ & _ & _ & _ & Hall).
  split; [exact Hr|]. split; [exact Hs|]. exact (Hall Hs).
Defined.

(** A sequence of seven calls from the initial world. *)
Lemma warmup_list_witness :
  V4.warmupNumbers (appState sampleWorld) = [] /\
  length (V4.warmupNumbers (appState (run (warmupSteps sampleCalls) sampleWorld))) <= 12 /\
  Forall (fun tok => V4.isValidRouletteNumber tok = true)
         (V4.warmupNumbers (appState (run (warmupSteps sampleCalls) sampleWorld))).
Proof.
  assert (H : V4.warmupNumbers (appState sampleWorld) = []) by reflexivity.
  split; [exact H|]. exact (warmup_list_invariant sampleCalls sampleWorld H).
Defined.

(** * Further properties of the scripts *)

(** *** Decimal numerals *)

Lemma parseDigits_uint (d : Decimal.uint) (acc : nat) :
  JS.parseDigits 10 (Some (Z.of_nat acc)) (NilEmpty.string_of_uint d) =
    Some (Z.of_nat (Nat.of_uint_acc d acc)).
Proof.
  revert acc.
  induction d as [|d IH|d IH|d IH|d IH|d IH|d IH|d IH|d IH|d IH|d IH];
    intros acc; cbn [NilEmpty.string_of_uint JS.parseDigits Nat.of_uint_acc];
    [reflexivity|..].
  all: match goal with
       | |- context [JS.radixDigit 10 ?c] =>
           let v := eval vm_compute in (JS.radixDigit 10 c) in
           change (JS.radixDigit 10 c) with v
       end; cbn [default from_option id];
       rewrite <- IH; do 2 f_equal;
       rewrite ?Nat.tail_add_spec, Nat.tail_mul_spec; lia.
Qed.

Lemma to_uint_nonnil (n : nat) : Nat.to_uint n <> Decimal.Nil.
Proof.
  rewrite <- (Unsigned.of_to n) at 1. rewrite Unsigned.to_of. apply unorm_nonnil.
Qed.

Lemma parseInt_numeral (d : Decimal.uint) :
  d <> Decimal.Nil ->
  JS.parseInt (NilEmpty.string_of_uint d) = Some (Z.of_nat (Nat.of_uint d)).
Proof.
  intros Hd.
  assert (H : JS.parseInt (NilEmpty.string_of_uint d) =
              match JS.parseDigits 10 (Some (Z.of_nat 0)) (NilEmpty.string_of_uint d) with
              | Some m => Some (1 * m)%Z
              | None => None
              end).
  { destruct d as [|d|d|d|d|d|d|d|d|d|d]; [contradiction|..];
      try reflexivity.
    destruct d; reflexivity. }
  rewrite H, parseDigits_uint. unfold Nat.of_uint. f_equal. lia.
Qed.

Lemma parseInt_toString (n : nat) :
  JS.parseInt (JS.toString n) = Some (Z.of_nat n).
Proof.
  unfold JS.toString. rewrite parseInt_numeral by apply to_uint_nonnil.
  rewrite Unsigned.of_to. reflexivity.
Qed.

Lemma toString_not_double_zero (n : nat) : JS.toString n <> "00".
Proof.
  intros H. pose proof (parseInt_toString n) as Hp. rewrite H in Hp.
  change (JS.parseInt "00") with (Some 0%Z) in Hp. injection Hp as Hn.
  assert (n = 0) by lia. subst n. vm_compute in H. discriminate.
Qed.

(** X1: for every natural number, its decimal numeral passes the
    validation of either script exactly when the number is at most 36. *)
Theorem numeral_valid_iff_at_most_36 (n : nat) :
  V4.isValidRouletteNumber (JS.toString n) = (n <=? 36)%nat /\
  Legacy.inlineValid (JS.toString n) = (n <=? 36)%nat.
Proof.
  pose proof (parseInt_toString n) as Hp.
  unfold V4.isValidRouletteNumber, Legacy.inlineValid. rewrite Hp.
  destruct (String.eqb_spec (JS.toString n) "00") as [E|_];
    [destruct (toString_not_double_zero n E)|].
  cbn [JS.isNaN JS.geb JS.leb JS.ltb JS.gtb negb orb andb].
  destruct (Nat.leb_spec n 36).
  - split.
    + apply andb_true_iff. split; apply Z.leb_le; lia.
    + apply negb_true_iff, orb_false_iff. split; apply Z.ltb_ge; lia.
  - split.
    + apply andb_false_iff. right. apply Z.leb_gt. lia.
    + apply negb_false_iff, orb_true_iff. right. apply Z.ltb_lt. lia.
Qed.

(** *** The two scripts side by side *)

(** X2: the validation helper of the v4 script and the inline test of the
    earlier script give the same verdict on every string. *)
Theorem validators_agree (tok : string) :
  V4.isValidRouletteNumber tok = Legacy.inlineValid tok.
Proof.
  unfold V4.isValidRouletteNumber, Legacy.inlineValid.
  destruct (String.eqb_spec tok "00") as [->|_]; [reflexivity|].
  destruct (JS.parseInt tok) as [v|]; [|reflexivity].
  cbn [JS.isNaN JS.geb JS.leb JS.ltb JS.gtb negb orb andb].
  rewrite negb_orb, <- !Z.leb_antisym. reflexivity.
Qed.

Lemma has_includes (L : list Z) (n : option Z) :
  V4.has (list_to_set L) n = Legacy.includes L n.
Proof.
  destruct n as [v|]; [|reflexivity]. cbn [V4.has Legacy.includes].
  apply eq_true_iff_eq. rewrite bool_decide_eq_true, elem_of_list_to_set.
  rewrite existsb_exists, list_elem_of_In. split.
  - intros H. exists v. split; [exact H | apply Z.eqb_refl].
  - intros (x & Hx & Hv). apply Z.eqb_eq in Hv. subst x. exact Hx.
Qed.

Lemma getNumberColor_Legacy_by_V4 (tok : string) :
  Legacy.getNumberColor tok =
    if negb (String.eqb tok "0") && negb (String.eqb tok "00")
       && JS.strictEqNum (JS.parseInt tok) 0
    then Black else V4.getNumberColor tok.
Proof.
  unfold Legacy.getNumberColor, V4.getNumberColor.
  change Legacy.redNumbers with
    [1; 3; 5; 7; 9; 12; 14; 16; 18; 19; 21; 23; 25; 27; 30; 32; 34; 36]%Z.
  unfold V4.RED_NUMBERS. rewrite has_includes.
  destruct (String.eqb tok "0"); [reflexivity|].
  destruct (String.eqb tok "00"); [reflexivity|].
  cbn [negb andb orb].
  destruct (JS.parseInt tok) as [v|]; [|reflexivity].
  cbn [JS.strictEqNum]. destruct (Z.eqb_spec v 0) as [->|_]; reflexivity.
Qed.

(** X3: the two [getNumberColor] differ on a string exactly when it is neither
    "0" nor "00" and [parseInt] reads 0 from it; there the v4 script says
    green and the earlier script says black. *)
Theorem getNumberColor_versions_differ_iff (tok : string) :
  (V4.getNumberColor tok <> Legacy.getNumberColor tok <->
     tok <> "0" /\ tok <> "00" /\ JS.parseInt tok = Some 0%Z) /\
  (V4.getNumberColor tok <> Legacy.getNumberColor tok ->
     V4.getNumberColor tok = Green /\ Legacy.getNumberColor tok = Black).
Proof.
  rewrite getNumberColor_Legacy_by_V4.
  assert (Hg : tok <> "0" -> tok <> "00" -> JS.parseInt tok = Some 0%Z ->
               V4.getNumberColor tok = Green).
  { intros _ _ Hp. unfold V4.getNumberColor. rewrite Hp.
    cbn [JS.strictEqNum Z.eqb]. rewrite !orb_true_r. reflexivity. }
  destruct (String.eqb_spec tok "0") as [E0|N0];
    [cbn [negb andb]; split; [split; [congruence | tauto] | congruence]|].
  destruct (String.eqb_spec tok "00") as [E00|N00];
    [cbn [negb andb]; split; [split; [congruence | tauto] | congruence]|].
  cbn [negb andb].
  destruct (JS.parseInt tok) as [v|] eqn:Hp; cbn [JS.strictEqNum];
    [|split; [split; [congruence | intros (_ & _ & H); discriminate] | congruence]].
  destruct (Z.eqb_spec v 0) as [->|Hv].
  - rewrite (Hg N0 N00 eq_refl). split; [split; [auto | discriminate] | auto].
  - split; [split; [congruence | intros (_ & _ & [= H]); contradiction] | congruence].
Qed.

(** The string "000": green in the v4 script, black in the earlier one. *)
Lemma getNumberColor_versions_differ_witness :
  V4.getNumberColor "000" <> Legacy.getNumberColor "000" /\
  V4.getNumberColor "000" = Green /\ Legacy.getNumberColor "000" = Black.
Proof.
  destruct (getNumberColor_versions_differ_iff "000") as [Hiff Hcol].
  assert (H : V4.getNumberColor "000" <> Legacy.getNumberColor "000").
  { apply Hiff. split; [discriminate|]. split; [discriminate | reflexivity]. }
  split; [exact H | exact (Hcol H)].
Defined.

(** *** Trimming *)

Lemma trimStart_lstrip s :
  list_ascii_of_string (JS.trimStart s) = lstrip (list_ascii_of_string s).
Proof.
  induction s as [|c s IH]; [reflexivity|]. cbn [JS.trimStart list_ascii_of_string lstrip].
  destruct (JS.isWhiteSpace c); [exact IH | reflexivity].
Qed.

Lemma trim_lstrip_rstrip s :
  list_ascii_of_string (JS.trim s) = rstrip (lstrip (list_ascii_of_string s)).
Proof.
  unfold JS.trim, JS.trimEnd, JS.reverseString, rstrip.
  rewrite list_ascii_of_string_of_list_ascii, trimStart_lstrip.
  rewrite list_ascii_of_string_of_list_ascii, trimStart_lstrip. reflexivity.
Qed.

Lemma lstrip_head l :
  lstrip l = [] \/ exists c r, lstrip l = c :: r /\ JS.isWhiteSpace c = false.
Proof.
  induction l as [|c l IH]; [left; reflexivity|]. cbn [lstrip].
  destruct (JS.isWhiteSpace c) eqn:E; [exact IH | right; eauto].
Qed.

Lemma lstrip_blank l :
  Forall (fun c => JS.isWhiteSpace c = true) l <-> lstrip l = [].
Proof.
  induction l as [|c l IH]; [split; [reflexivity | constructor]|].
  cbn [lstrip]. destruct (JS.isWhiteSpace c) eqn:E.
  - rewrite <- IH. split; [intros H; inversion H; assumption | intros H; constructor; assumption].
  - split; [intros H; inversion H; congruence | discriminate].
Qed.

Lemma lstrip_snoc l c :
  JS.isWhiteSpace c = false -> lstrip (l ++ [c])%list = (lstrip l ++ [c])%list.
Proof.
  intros Hc. induction l as [|x l IH]; cbn [lstrip app].
  - rewrite Hc. reflexivity.
  - destruct (JS.isWhiteSpace x); [exact IH | reflexivity].
Qed.

Lemma rstrip_cons c r :
  JS.isWhiteSpace c = false -> rstrip (c :: r) = c :: rstrip r.
Proof.
  intros Hc. unfold rstrip. cbn [rev]. rewrite lstrip_snoc by exact Hc.
  rewrite rev_app_distr. reflexivity.
Qed.

Lemma lstrip_idem l : lstrip (lstrip l) = lstrip l.
Proof.
  destruct (lstrip_head l) as [->|(c & r & -> & Hc)]; [reflexivity|].
  cbn [lstrip]. rewrite Hc. reflexivity.
Qed.

Lemma rstrip_idem l : rstrip (rstrip l) = rstrip l.
Proof. unfold rstrip. rewrite rev_involutive, lstrip_idem. reflexivity. Qed.

Lemma trim_idempotent s : JS.trim (JS.trim s) = JS.trim s.
Proof.
  rewrite <- (string_of_list_ascii_of_string (JS.trim (JS.trim s))).
  rewrite <- (string_of_list_ascii_of_string (JS.trim s)) at 2.
  f_equal. rewrite (trim_lstrip_rstrip (JS.trim s)), (trim_lstrip_rstrip s).
  destruct (lstrip_head (list_ascii_of_string s)) as [->|(c & r & -> & Hc)];
    [reflexivity|].
  rewrite (rstrip_cons c r Hc). cbn [lstrip]. rewrite Hc.
  rewrite <- (rstrip_cons c r Hc). apply rstrip_idem.
Qed.

Lemma trim_blank s : blank s <-> JS.trim s = "".
Proof.
  unfold blank. rewrite lstrip_blank. split.
  - intros H. rewrite <- (string_of_list_ascii_of_string (JS.trim s)).
    rewrite trim_lstrip_rstrip, H. reflexivity.
  - intros H. apply (f_equal list_ascii_of_string) in H.
    rewrite trim_lstrip_rstrip in H.
    destruct (lstrip_head (list_ascii_of_string s)) as [E|(c & r & E & Hc)];
      [exact E|].
    rewrite E, (rstrip_cons c r Hc) in H. discriminate.
Qed.

(** *** Blank input *)

Ltac blank_case H :=
  apply trim_blank in H;
  match goal with
  | |- run _ ?w = _ => destruct w as [s d a l]
  end;
  cbn [doc] in H; exec; rewrite H; reflexivity.

(** X4: an input that is empty or holds white space only is ignored by the
    warmup and spin handlers of both scripts: the world is left exactly as
    it was (no message, no request, nothing cleared). *)
Theorem blank_input_is_ignored
    (w : World V4.AppState) (wl : World Legacy.state) (r : response) :
  (blank (warmupInput_value (doc w)) -> run V4.addWarmupNumber w = w) /\
  (blank (numberInput_value (doc w)) -> run (V4.processSpin r) w = w) /\
  (blank (warmupInput_value (doc wl)) -> run Legacy.addWarmupNumber wl = wl) /\
  (blank (numberInput_value (doc wl)) -> run (Legacy.processSpin r) wl = wl).
Proof.
  repeat split; intros H.
  - unfold V4.addWarmupNumber. blank_case H.
  - unfold V4.processSpin. blank_case H.
  - unfold Legacy.addWarmupNumber. blank_case H.
  - unfold Legacy.processSpin. blank_case H.
Qed.

(** Three spaces typed in the warmup input. *)
Lemma blank_input_witness :
  blank "   " /\
  run V4.addWarmupNumber
      (mkWorld V4.initialAppState (set_warmupInput "   " samplePage) ∅ []) =
    mkWorld V4.initialAppState (set_warmupInput "   " samplePage) ∅ [].
Proof.
  assert (H : blank "   ") by (repeat constructor).
  destruct (blank_input_is_ignored
              (mkWorld V4.initialAppState (set_warmupInput "   " samplePage) ∅ [])
              sampleLegacyWorld Rejected) as (Hadd & _).
  split; [exact H | exact (Hadd H)].
Defined.

(** *** What a spin sends *)

Lemma V4_processSpin_blank (w : World V4.AppState) r :
  JS.trim (numberInput_value (doc w)) = "" -> run (V4.processSpin r) w = w.
Proof.
  intros H. destruct w as [s d a l]. cbn [doc] in H.
  unfold V4.processSpin. exec. rewrite H. reflexivity.
Qed.

Lemma Legacy_processSpin_blank (w : World Legacy.state) r :
  JS.trim (numberInput_value (doc w)) = "" -> run (Legacy.processSpin r) w = w.
Proof.
  intros H. destruct w as [s d a l]. cbn [doc] in H.
  unfold Legacy.processSpin. exec. rewrite H. reflexivity.
Qed.

Lemma effectsAfter_same {St} (w : World St) : effectsAfter w w = [].
Proof. unfold effectsAfter. apply drop_all. Qed.

(** X5: in both scripts a spin sends one request, carrying the trimmed
    input, when that token is not empty and passes the validation, and sends
    nothing otherwise; so every number sent to the server is a valid
    token. *)
Theorem processSpin_sends_valid_token_only
    (w : World V4.AppState) (wl : World Legacy.state) (r : response) :
  let num := JS.trim (numberInput_value (doc w)) in
  let numl := JS.trim (numberInput_value (doc wl)) in
  requests (effectsAfter w (run (V4.processSpin r) w)) =
    (if negb (String.eqb num "") && V4.isValidRouletteNumber num
     then [("/api/spin", SpinBody num)] else []) /\
  requests (effectsAfter wl (run (Legacy.processSpin r) wl)) =
    (if negb (String.eqb numl "") && Legacy.inlineValid numl
     then [("/api/spin", SpinBody numl)] else []) /\
  (forall endpoint tok,
     In (endpoint, SpinBody tok) (requests (effectsAfter w (run (V4.processSpin r) w))) ->
     V4.isValidRouletteNumber tok = true).
Proof.
  intros num numl.
  assert (H4 : requests (effectsAfter w (run (V4.processSpin r) w)) =
    (if negb (String.eqb num "") && V4.isValidRouletteNumber num
     then [("/api/spin", SpinBody num)] else [])).
  { destruct (String.eqb_spec num "") as [E|E]; cbn [negb andb].
    - rewrite (V4_processSpin_blank w r E). rewrite effectsAfter_same. reflexivity.
    - destruct (V4.isValidRouletteNumber num) eqn:Hv.
      + apply V4_processSpin_valid; assumption.
      + rewrite (V4_processSpin_invalid w r E Hv). log_suffix. reflexivity. }
  split; [exact H4|]. split.
  - destruct (String.eqb_spec numl "") as [E|E]; cbn [negb andb].
    + rewrite (Legacy_processSpin_blank wl r E). rewrite effectsAfter_same. reflexivity.
    + destruct (Legacy.inlineValid numl) eqn:Hv.
      * apply Legacy_processSpin_valid; assumption.
      * rewrite (Legacy_processSpin_invalid wl r E Hv). log_suffix. reflexivity.
  - intros endpoint tok Hin. rewrite H4 in Hin.
    destruct (negb (String.eqb num "")); cbn [andb] in Hin; [|destruct Hin].
    destruct (V4.isValidRouletteNumber num) eqn:Hv; [|destruct Hin].
    destruct Hin as [[= _ <-]|[]]. exact Hv.
Qed.

(** The number 17 typed on the game screen. *)
Lemma processSpin_sends_witness :
  requests (effectsAfter spinWorld (run (V4.processSpin okResponse) spinWorld)) =
    [("/api/spin", SpinBody "17")] /\
  V4.isValidRouletteNumber "17" = true.
Proof.
  destruct (processSpin_sends_valid_token_only spinWorld sampleLegacyWorld okResponse)
    as (Hsent & _ & Hvalid).
  split; [exact Hsent|].
  apply (Hvalid "/api/spin" "17"). rewrite Hsent. left. reflexivity.
Defined.

(** *** Removing a warmup number *)

Lemma splice1_in_range {A} (i : nat) (l : list A) :
  i < length l -> splice1 (Z.of_nat i) l = delete i l.
Proof.
  intros Hi. unfold splice1.
  destruct (Z.ltb_spec (Z.of_nat i) 0) as [H|_]; [lia|].
  replace (Z.min (Z.of_nat i) (Z.of_nat (length l))) with (Z.of_nat i) by lia.
  replace (Z.min 1 (Z.of_nat (length l) - Z.of_nat i)) with 1%Z by lia.
  rewrite Nat2Z.id. replace (Z.to_nat (Z.of_nat i + 1)) with (S i) by lia.
  symmetry. apply delete_take_drop.
Qed.

Lemma splice1_beyond {A} (index : Z) (l : list A) :
  (Z.of_nat (length l) <= index)%Z -> splice1 index l = l.
Proof.
  intros Hi. unfold splice1.
  destruct (Z.ltb_spec index 0) as [H|_]; [lia|].
  replace (Z.min index (Z.of_nat (length l))) with (Z.of_nat (length l)) by lia.
  replace (Z.min 1 (Z.of_nat (length l) - Z.of_nat (length l))) with 0%Z by lia.
  rewrite Z.add_0_r, Nat2Z.id. apply take_drop.
Qed.

Lemma splice1_negative {A} (index : Z) (l : list A) :
  (index < 0)%Z -> l <> [] ->
  splice1 index l = delete (Z.to_nat (Z.max (Z.of_nat (length l) + index) 0)) l.
Proof.
  intros Hi Hl. unfold splice1.
  destruct (Z.ltb_spec index 0) as [_|H]; [|lia].
  assert (0 < length l) by (destruct l; [contradiction | cbn; lia]).
  set (k := Z.max (Z.of_nat (length l) + index) 0).
  replace (Z.min 1 (Z.of_nat (length l) - k)) with 1%Z by lia.
  replace (Z.to_nat (k + 1)) with (S (Z.to_nat k)) by lia.
  symmetry. apply delete_take_drop.
Qed.

(** X6: [removeWarmupNumber] with an index inside the list removes that
    element and keeps the others in order; with an index at or past the end
    it removes nothing; with a negative index it counts from the end, and
    past the front it removes the first element. *)
Theorem removeWarmupNumber_by_index (w : World V4.AppState) (index : Z) :
  let numbers := V4.warmupNumbers (appState w) in
  let numbers' := V4.warmupNumbers (appState (run (V4.removeWarmupNumber index) w)) in
  let len := Z.of_nat (length numbers) in
  ((0 <= index < len)%Z -> numbers' = delete (Z.to_nat index) numbers) /\
  ((len <= index)%Z -> numbers' = numbers) /\
  ((- len <= index < 0)%Z -> numbers' = delete (Z.to_nat (len + index)) numbers) /\
  ((index < - len)%Z -> numbers' = delete 0 numbers).
Proof.
  intros numbers numbers' len. subst numbers'.
  rewrite V4_removeWarmupNumber_numbers. fold numbers.
  split; [|split; [|split]].
  - intros H. rewrite <- (Z2Nat.id index) at 1 by lia.
    apply splice1_in_range. lia.
  - apply splice1_beyond.
  - intros H. rewrite splice1_negative; [|lia|].
    + fold len. rewrite Z.max_l by lia. reflexivity.
    + intros E. subst len. rewrite E in H. cbn in H. lia.
  - intros H. destruct numbers as [|x l] eqn:E;
      [unfold splice1; rewrite take_nil, drop_nil; reflexivity|].
    rewrite splice1_negative; [|lia|discriminate].
    fold len. rewrite Z.max_r by lia. reflexivity.
Qed.

(** Removing the second of twelve numbers, and removing past the end. *)
Lemma removeWarmupNumber_witness :
  V4.warmupNumbers (appState (run (V4.removeWarmupNumber 1) warmedWorld)) =
    ["1"; "3"; "4"; "5"; "6"; "7"; "8"; "9"; "10"; "11"; "12"] /\
  V4.warmupNumbers (appState (run (V4.removeWarmupNumber 12) warmedWorld)) =
    twelveNumbers.
Proof.
  destruct (removeWarmupNumber_by_index warmedWorld 1) as (Hin & _).
  destruct (removeWarmupNumber_by_index warmedWorld 12) as (_ & Hout & _).
  split.
  - apply Hin. cbn. lia.
  - apply Hout. cbn. lia.
Defined.

(** *** The start button *)

Lemma warmupStep_button c (w : World V4.AppState) :
  buttonInvariant w -> buttonInvariant (run (warmupStep c) w).
Proof.
  unfold buttonInvariant. intros Hinv. destruct w as [s d a l].
  cbn [doc appState] in Hinv.
  destruct c as [typed|index|]; cbn [warmupStep].
  - unfold V4.addWarmupNumber, V4.updateWarmupDisplay.
    split_ifs; cbn [doc appState set_warmupInput set_startGameBtn
                    startGameBtn_disabled V4.set_warmupNumbers V4.warmupNumbers] in *;
      try exact Hinv.
    all: rewrite ?length_app in *; cbn [length] in *;
      repeat match goal with
             | H : (_ <=? _)%nat = false |- _ => apply Nat.leb_gt in H
             | H : (_ =? _)%nat = false |- _ => apply Nat.eqb_neq in H
             | H : (_ =? _)%nat = true |- _ => apply Nat.eqb_eq in H
             end;
      rewrite ?Hinv;
      repeat match goal with
             | |- context [(?x =? 12)%nat] => destruct (Nat.eqb_spec x 12)
             end;
      cbn [negb]; first [reflexivity | lia].
  - unfold V4.removeWarmupNumber, V4.updateWarmupDisplay.
    split_ifs; reflexivity.
  - unfold V4.clearWarmup, V4.updateWarmupDisplay.
    split_ifs; reflexivity.
Qed.

(** X7: through any sequence of warmup calls the start button stays
    disabled exactly when the list does not hold 12 numbers, once that is so
    at the start (as on the fresh page: empty list, button disabled). *)
Theorem start_button_enabled_iff_12 (cs : list warmupCall) (w : World V4.AppState) :
  startGameBtn_disabled (doc w) =
    negb (length (V4.warmupNumbers (appState w)) =? 12)%nat ->
  startGameBtn_disabled (doc (run (warmupSteps cs) w)) =
    negb (length (V4.warmupNumbers (appState (run (warmupSteps cs) w))) =? 12)%nat.
Proof.
  revert w. induction cs as [|c cs IH]; intros w Hinv; [exact Hinv|].
  cbn [warmupSteps]. rewrite run_then. apply IH.
  apply (warmupStep_button c w Hinv).
Qed.

(** Seven calls from the fresh page. *)
Lemma start_button_witness :
  startGameBtn_disabled (doc sampleWorld) = true /\
  startGameBtn_disabled (doc (run (warmupSteps sampleCalls) sampleWorld)) =
    negb (length (V4.warmupNumbers (appState (run (warmupSteps sampleCalls) sampleWorld)))
          =? 12)%nat.
Proof.
  split; [reflexivity|].
  apply (start_button_enabled_iff_12 sampleCalls sampleWorld). reflexivity.
Defined.

(** *** What the warmup list stores *)

Lemma V4_addWarmupNumber_appends (w : World V4.AppState) :
  let num := JS.trim (warmupInput_value (doc w)) in
  let old := V4.warmupNumbers (appState w) in
  V4.warmupNumbers (appState (run V4.addWarmupNumber w)) = old \/
  (num <> "" /\
   V4.warmupNumbers (appState (run V4.addWarmupNumber w)) = (old ++ [num])%list).
Proof.
  intros num old. subst num old. destruct w as [s d a l]. cbn [doc appState].
  unfold V4.addWarmupNumber, V4.updateWarmupDisplay.
  split_ifs; try (left; reflexivity).
  all: right; split; [|reflexivity];
    match goal with H : (_ =? "") = false |- _ => apply String.eqb_neq in H; exact H end.
Qed.

Lemma warmupStep_add_run typed (w : World V4.AppState) :
  run (warmupStep (AddWarmupNumber typed)) w =
    run V4.addWarmupNumber
        (mkWorld (appState w) (set_warmupInput typed (doc w)) (arrays w) (log w)).
Proof. destruct w as [s d a l]. reflexivity. Qed.

Lemma splice1_Forall {A} (P : A -> Prop) index (l : list A) :
  Forall P l -> Forall P (splice1 index l).
Proof.
  intros H. unfold splice1. apply Forall_app.
  split; [apply Forall_take | apply Forall_drop]; exact H.
Qed.

Lemma warmupStep_trimmed c (w : World V4.AppState) :
  Forall (fun tok => tok <> "" /\ JS.trim tok = tok) (V4.warmupNumbers (appState w)) ->
  Forall (fun tok => tok <> "" /\ JS.trim tok = tok)
         (V4.warmupNumbers (appState (run (warmupStep c) w))).
Proof.
  intros Hinv. destruct c as [typed|index|].
  - rewrite warmupStep_add_run.
    destruct (V4_addWarmupNumber_appends
                (mkWorld (appState w) (set_warmupInput typed (doc w)) (arrays w) (log w)))
      as [->|(Hne & ->)]; cbn [appState doc] in *; [exact Hinv|].
    apply Forall_app. split; [exact Hinv|].
    constructor; [|constructor]. split; [exact Hne | apply trim_idempotent].
  - cbn [warmupStep]. rewrite V4_removeWarmupNumber_numbers.
    apply splice1_Forall. exact Hinv.
  - cbn [warmupStep]. rewrite V4_clearWarmup_numbers. constructor.
Qed.

(** X8: after any sequence of warmup calls started with an empty list,
    every stored number is a non-empty string in trimmed form (trimming it
    again gives the same string). *)
Theorem warmup_list_stores_trimmed_tokens (cs : list warmupCall) (w : World V4.AppState) :
  V4.warmupNumbers (appState w) = [] ->
  Forall (fun tok => tok <> "" /\ JS.trim tok = tok)
         (V4.warmupNumbers (appState (run (warmupSteps cs) w))).
Proof.
  intros Hempty.
  assert (H : Forall (fun tok => tok <> "" /\ JS.trim tok = tok)
                     (V4.warmupNumbers (appState w)))
    by (rewrite Hempty; constructor).
  clear Hempty. revert w H. induction cs as [|c cs IH]; intros w H; [exact H|].
  cbn [warmupSteps]. rewrite run_then. apply IH, warmupStep_trimmed, H.
Qed.

(** Seven calls from the fresh page. *)
Lemma warmup_list_trimmed_witness :
  V4.warmupNumbers (appState sampleWorld) = [] /\
  Forall (fun tok => tok <> "" /\ JS.trim tok = tok)
         (V4.warmupNumbers (appState (run (warmupSteps sampleCalls) sampleWorld))).
Proof.
  assert (H : V4.warmupNumbers (appState sampleWorld) = []) by reflexivity.
  split; [exact H | exact (warmup_list_stores_trimmed_tokens sampleCalls sampleWorld H)].
Defined.

(** *** From the typed numbers to the warmup request *)

Lemma adds_append (typed : list string) (w : World V4.AppState) :
  forallb acceptable typed = true ->
  length (V4.warmupNumbers (appState w)) + length typed <= 12 ->
  V4.warmupNumbers (appState (run (warmupSteps (AddWarmupNumber <$> typed)) w)) =
    (V4.warmupNumbers (appState w) ++ (JS.trim <$> typed))%list.
Proof.
  revert w. induction typed as [|t typed IH]; intros w Hok Hlen.
  - cbn. rewrite app_nil_r. reflexivity.
  - cbn [forallb] in Hok. apply andb_true_iff in Hok as [Ht Hok].
    unfold acceptable in Ht. apply andb_true_iff in Ht as [Hne Hv].
    apply negb_true_iff, String.eqb_neq in Hne.
    cbn [fmap list_fmap warmupSteps length] in *. rewrite run_then.
    set (w1 := run (warmupStep (AddWarmupNumber t)) w).
    assert (H1 : V4.warmupNumbers (appState w1) =
                 (V4.warmupNumbers (appState w) ++ [JS.trim t])%list).
    { subst w1. rewrite warmupStep_add_run.
      rewrite V4_addWarmupNumber_valid by (cbn [doc]; assumption).
      cbn [appState doc].
      destruct (Nat.leb_spec 12 (length (V4.warmupNumbers (appState w)))); [lia|].
      reflexivity. }
    rewrite (IH w1 Hok) by (rewrite H1, length_app; cbn [length]; lia).
    rewrite H1, <- app_assoc. reflexivity.
Qed.

(** X9: when twelve typed strings, each non-blank and valid once trimmed,
    are submitted one after the other to an empty warmup list, the list
    holds their trimmed forms in the order typed, and [startGame] then sends
    the warmup request with exactly that list. *)
Theorem typed_numbers_reach_the_warmup_request
    (typed : list string) (w : World V4.AppState) (r rStats : response) :
  V4.warmupNumbers (appState w) = [] ->
  length typed = 12 ->
  forallb acceptable typed = true ->
  let w' := run (warmupSteps (AddWarmupNumber <$> typed)) w in
  V4.warmupNumbers (appState w') = JS.trim <$> typed /\
  requests (effectsAfter w' (run (V4.startGame r rStats) w')) =
    ("/api/warmup", WarmupBody (JS.trim <$> typed)) ::
    (if succeeds r then [("/api/stats", NoBody)] else []).
Proof.
  intros Hempty Hlen Hok w'.
  assert (H : V4.warmupNumbers (appState w') = JS.trim <$> typed).
  { subst w'. rewrite adds_append
      by (first [assumption | rewrite Hempty; cbn [length]; lia]).
    rewrite Hempty. reflexivity. }
  split; [exact H|].
  rewrite V4_startGame_right_size by (rewrite H, length_fmap; exact Hlen).
  rewrite H. reflexivity.
Qed.

(** Twelve typed strings, some with spaces around, from the fresh page. *)
Lemma typed_numbers_witness :
  V4.warmupNumbers
    (appState (run (warmupSteps (AddWarmupNumber <$> twelveTyped)) sampleWorld)) =
    ["1"; "2"; "3"; "04"; "5"; "6"; "7"; "8"; "9"; "10"; "00"; "36"].
Proof.
  assert (H1 : V4.warmupNumbers (appState sampleWorld) = []) by reflexivity.
  assert (H2 : length twelveTyped = 12) by reflexivity.
  assert (H3 : forallb acceptable twelveTyped = true) by reflexivity.
  exact (proj1 (typed_numbers_reach_the_warmup_request twelveTyped sampleWorld
                  okResponse Rejected H1 H2 H3)).
Defined.

(** *** The strategies object *)

Lemma foldl_setProperty_notin cbs (acc : gmap string bool) name :
  ~ In name (fst <$> cbs) ->
  foldl (fun acc cb => setProperty cb.1 cb.2 acc) acc cbs !! name = acc !! name.
Proof.
  revert acc. induction cbs as [|[k x] cbs IH]; intros acc Hn; [reflexivity|].
  cbn [foldl fmap list_fmap fst snd] in *.
  rewrite IH by (intros H; apply Hn; right; exact H).
  unfold setProperty. destruct (String.eqb k "__proto__"); [reflexivity|].
  apply lookup_insert_ne. intros E. apply Hn. left. exact E.
Qed.

Lemma foldl_setProperty_proto cbs (acc : gmap string bool) :
  foldl (fun acc cb => setProperty cb.1 cb.2 acc) acc cbs !! "__proto__" =
    acc !! "__proto__".
Proof.
  revert acc. induction cbs as [|[k x] cbs IH]; intros acc; [reflexivity|].
  cbn [foldl fst snd]. rewrite IH. unfold setProperty.
  destruct (String.eqb_spec k "__proto__") as [_|Hne]; [reflexivity|].
  apply lookup_insert_ne. exact Hne.
Qed.

Lemma foldl_setProperty_in cbs (acc : gmap string bool) name v :
  name <> "__proto__" ->
  List.NoDup (fst <$> cbs) -> In (name, v) cbs ->
  foldl (fun acc cb => setProperty cb.1 cb.2 acc) acc cbs !! name = Some v.
Proof.
  intros Hname.
  revert acc. induction cbs as [|[k x] cbs IH]; intros acc Hnd Hin; [destruct Hin|].
  cbn [foldl fmap list_fmap fst snd] in *. inversion Hnd as [|? ? Hk Hnd']; subst.
  destruct Hin as [[= -> ->]|Hin].
  - rewrite foldl_setProperty_notin by exact Hk. unfold setProperty.
    destruct (String.eqb_spec name "__proto__") as [E|_]; [contradiction|].
    apply lookup_insert_eq.
  - apply IH; assumption.
Qed.

Lemma collectStrategies_no_proto cbs : collectStrategies cbs !! "__proto__" = None.
Proof. unfold collectStrategies. rewrite foldl_setProperty_proto. apply lookup_empty. Qed.

(** X10: when the strategy checkboxes have distinct values, the strategies
    object maps a value to [v] exactly when the value is not "__proto__" and a
    checkbox with that value has checked state [v]; the selection counts as
    active exactly when a checkbox with a value other than "__proto__" is
    ticked; a checkbox whose value is "__proto__" leaves no entry at all. *)
Theorem strategies_reflect_checkboxes (cbs : list (string * bool)) :
  List.NoDup (fst <$> cbs) ->
  (forall name v,
     collectStrategies cbs !! name = Some v <->
     name <> "__proto__" /\ In (name, v) cbs) /\
  (hasActiveStrategy (collectStrategies cbs) = true <->
     exists name, name <> "__proto__" /\ In (name, true) cbs) /\
  collectStrategies cbs !! "__proto__" = None.
Proof.
  intros Hnd.
  assert (Hlook : forall name v,
             collectStrategies cbs !! name = Some v <->
             name <> "__proto__" /\ In (name, v) cbs).
  { intros name v. split.
    - intros H. split.
      + intros ->. rewrite collectStrategies_no_proto in H. discriminate.
      + apply collectStrategies_lookup in H as [H|H]; [exact H|].
        rewrite lookup_empty in H. discriminate.
    - intros [Hname Hin]. apply foldl_setProperty_in; assumption. }
  split; [exact Hlook|]. split; [|apply collectStrategies_no_proto].
  unfold hasActiveStrategy. rewrite existsb_exists. split.
  - intros ([name v] & Hin & Hv). cbn [snd] in Hv. apply Bool.eqb_prop in Hv. subst v.
    apply list_elem_of_In, elem_of_map_to_list, Hlook in Hin.
    exists name. exact Hin.
  - intros (name & Hname & Hin). exists (name, true). split; [|reflexivity].
    apply list_elem_of_In, elem_of_map_to_list, Hlook. split; assumption.
Qed.

(** The two checkboxes of the sample page. *)
Lemma strategies_reflect_witness :
  List.NoDup (fst <$> strategy_checkboxes samplePage) /\
  collectStrategies (strategy_checkboxes samplePage) !! "FRIO" = Some false /\
  hasActiveStrategy (collectStrategies (strategy_checkboxes samplePage)) = true.
Proof.
  assert (Hnd : List.NoDup (fst <$> strategy_checkboxes samplePage)).
  { cbn. constructor; [intros [H|[]]; discriminate|].
    constructor; [intros []|constructor]. }
  destruct (strategies_reflect_checkboxes _ Hnd) as (Hlook & Hact & _).
  split; [exact Hnd|]. split.
  - apply Hlook. split; [discriminate|]. cbn. right. left. reflexivity.
  - apply Hact. exists "COR". split; [discriminate|]. cbn. left. reflexivity.
Defined.

(** X11: among checkboxes that share a value other than "__proto__" the last
    one wins: the object holds, for that value, the checked state of its
    last checkbox. *)
Theorem last_checkbox_wins
    (before after : list (string * bool)) (name : string) (v : bool) :
  name <> "__proto__" ->
  ~ In name (fst <$> after) ->
  collectStrategies (before ++ (name, v) :: after) !! name = Some v.
Proof.
  intros Hname Hn. unfold collectStrategies. rewrite foldl_app. cbn [foldl fst snd].
  rewrite foldl_setProperty_notin by exact Hn. unfold setProperty.
  destruct (String.eqb_spec name "__proto__") as [E|_]; [contradiction|].
  apply lookup_insert_eq.
Qed.

(** Two checkboxes with the value COR, the second unticked. *)
Lemma last_checkbox_witness :
  collectStrategies [("COR", true); ("COR", false); ("FRIO", true)] !! "COR" = Some false.
Proof.
  apply (last_checkbox_wins [("COR", true)] [("FRIO", true)] "COR" false).
  - discriminate.
  - cbn. intros [H|[]]. discriminate.
Defined.

(** *** State transitions of the request handlers *)

Section SetupTransitions.
Variable parseFloat : string -> spec_float.

Lemma V4_goToWarmup_accepted (w : World V4.AppState) r :
  let b := parseFloat (bankroll_value (doc w)) in
  let m := collectStrategies (strategy_checkboxes (doc w)) in
  SFltb positiveZero b = true ->
  hasActiveStrategy m = true ->
  succeeds r = true ->
  appState (run (V4.goToWarmup parseFloat r) w) =
    V4.mkAppState b m (V4.warmupNumbers (appState w)) (V4.initialized (appState w))
      (match screens (doc w) !! "warmupScreen" with
       | Some _ => "warmup"
       | None => V4.currentScreen (appState w)
       end).
Proof.
  intros b m Hb Hs Hr. subst b m. destruct w as [s d a l]. cbn [doc appState] in *.
  destruct r as [|[] p]; cbn [succeeds] in Hr; try discriminate.
  unfold V4.goToWarmup, V4.apiRequest, V4.receive, V4.showScreen.
  exec. rewrite not_positive, Hb, Hs. exec.
  destruct (p_history p); exec; cbn [success]; rewrite Hr; exec;
    unfold set_screens; cbn [screens]; rewrite lookup_fmap;
    destruct (screens d !! "warmupScreen"); reflexivity.
Qed.

(** X12: [goToWarmup] never touches the warmup list or the [initialized]
    flag, whatever the inputs and the answer; after a success on a page with
    the warmup screen the state holds the parsed bankroll, the strategies
    object and the screen name "warmup". *)
Theorem goToWarmup_transition (w : World V4.AppState) (r : response) :
  let b := parseFloat (bankroll_value (doc w)) in
  let m := collectStrategies (strategy_checkboxes (doc w)) in
  let s' := appState (run (V4.goToWarmup parseFloat r) w) in
  V4.warmupNumbers s' = V4.warmupNumbers (appState w) /\
  V4.initialized s' = V4.initialized (appState w) /\
  (SFltb positiveZero b = true -> hasActiveStrategy m = true ->
   succeeds r = true -> is_Some (screens (doc w) !! "warmupScreen") ->
     s' = V4.mkAppState b m (V4.warmupNumbers (appState w))
                        (V4.initialized (appState w)) "warmup").
Proof.
  intros b m s'.
  assert (Hcases :
    s' = appState w \/
    s' = V4.set_strategies m (V4.set_bankroll b (appState w)) \/
    (SFltb positiveZero b = true /\ hasActiveStrategy m = true /\ succeeds r = true)).
  { destruct (SFltb positiveZero b) eqn:Hb.
    - destruct (hasActiveStrategy m) eqn:Hs.
      + destruct (succeeds r) eqn:Hr; [right; right; auto|].
        right. left. apply V4_goToWarmup_rejected; assumption.
      + left. subst s'. rewrite V4_goToWarmup_no_strategy by assumption. reflexivity.
    - left. subst s'. rewrite V4_goToWarmup_bad_bankroll by assumption. reflexivity. }
  assert (Hkeep : V4.warmupNumbers s' = V4.warmupNumbers (appState w) /\
                  V4.initialized s' = V4.initialized (appState w)).
  { destruct Hcases as [->|[->|(Hb & Hs & Hr)]]; [split; reflexivity..|].
    subst s'. rewrite V4_goToWarmup_accepted by assumption. split; reflexivity. }
  split; [apply Hkeep|]. split; [apply Hkeep|].
  intros Hb Hs Hr [x Hx]. subst s'.
  rewrite V4_goToWarmup_accepted by assumption. rewrite Hx. reflexivity.
Qed.
End SetupTransitions.

(** A bankroll of 100, a ticked strategy and a successful answer. *)
Lemma goToWarmup_transition_witness :
  appState (run (V4.goToWarmup parseFloat_integers okResponse) sampleWorld) =
    V4.mkAppState (parseFloat_integers "100")
      (collectStrategies (strategy_checkboxes samplePage)) [] false "warmup".
Proof.
  destruct (goToWarmup_transition parseFloat_integers sampleWorld okResponse)
    as (_ & _ & H).
  apply H; [reflexivity | reflexivity | reflexivity | exists false; reflexivity].
Defined.

Lemma V4_startGame_accepted (w : World V4.AppState) r rStats :
  length (V4.warmupNumbers (appState w)) = 12 ->
  succeeds r = true ->
  appState (run (V4.startGame r rStats) w) =
    V4.mkAppState (V4.bankroll (appState w)) (V4.strategies (appState w))
      (V4.warmupNumbers (appState w)) true
      (match screens (doc w) !! "gameScreen" with
       | Some _ => "game"
       | None => V4.currentScreen (appState w)
       end).
Proof.
  intros Hlen Hr. destruct w as [s d a l]. cbn [doc appState] in *.
  destruct r as [|[] p]; cbn [succeeds] in Hr; try discriminate.
  unfold V4.startGame, V4.apiRequest, V4.receive, V4.showScreen,
    V4.updateStats_send, V4.updateStats_resume, V4.receive, V4.updateHistory,
    V4.updateBankrollDisplay, V4.updateHotCold.
  exec. rewrite Hlen. cbn [Nat.eqb negb]. exec.
  destruct (p_history p); exec; cbn [success]; rewrite Hr; exec;
    unfold set_screens; cbn [screens]; rewrite lookup_fmap;
    destruct (screens d !! "gameScreen"); cbn [fmap option_fmap option_map];
    split_ifs; reflexivity.
Qed.

(** X13: [startGame] of the v4 script changes the state only on a list of
    12 numbers and an answer that is [ok] and says success: then
    [initialized] becomes true (and the screen name "game" on a page with the
    game screen); bankroll, strategies and the warmup list are never
    changed. *)
Theorem startGame_transition (w : World V4.AppState) (r rStats : response) :
  let s := appState w in
  let s' := appState (run (V4.startGame r rStats) w) in
  let go := (length (V4.warmupNumbers s) =? 12)%nat && succeeds r in
  V4.bankroll s' = V4.bankroll s /\
  V4.strategies s' = V4.strategies s /\
  V4.warmupNumbers s' = V4.warmupNumbers s /\
  V4.initialized s' = (go || V4.initialized s) /\
  (go = false -> s' = s) /\
  (go = true -> is_Some (screens (doc w) !! "gameScreen") ->
     V4.currentScreen s' = "game").
Proof.
  intros s s' go.
  destruct (Nat.eqb_spec (length (V4.warmupNumbers s)) 12) as [Hlen|Hlen];
    [destruct (succeeds r) eqn:Hr|]; subst go; cbn [andb orb].
  - subst s'. rewrite (V4_startGame_accepted w r rStats Hlen Hr). fold s.
    repeat split; try reflexivity; try discriminate.
    intros _ [x Hx]. cbn [V4.currentScreen]. rewrite Hx. reflexivity.
  - subst s'. rewrite (V4_startGame_rejected w r rStats Hr). fold s.
    repeat split; try reflexivity. discriminate.
  - subst s'. rewrite (V4_startGame_wrong_size w r rStats Hlen). cbn [appState]. fold s.
    repeat split; try reflexivity. discriminate.
Qed.

(** Twelve numbers and a successful answer. *)
Lemma startGame_transition_witness :
  V4.initialized (appState (run (V4.startGame okResponse Rejected) warmedWorld)) = true /\
  V4.currentScreen (appState (run (V4.startGame okResponse Rejected) warmedWorld)) = "game" /\
  appState (run (V4.startGame okResponse Rejected) sampleWorld) = appState sampleWorld.
Proof.
  destruct (startGame_transition warmedWorld okResponse Rejected)
    as (_ & _ & _ & Hinit & _ & Hscreen).
  destruct (startGame_transition sampleWorld okResponse Rejected)
    as (_ & _ & _ & _ & Hsame & _).
  split; [exact Hinit|]. split.
  - apply Hscreen; [reflexivity | exists false; reflexivity].
  - apply Hsame. reflexivity.
Defined.

Lemma Legacy_startGame_initialized (w : World Legacy.state) r rStats :
  Legacy.initialized (appState (run (Legacy.startGame r rStats) w)) =
    ((length (Legacy.warmupNumbers (appState w)) =? 12)%nat && succeedsLegacy r
     || Legacy.initialized (appState w)).
Proof.
  destruct w as [s d a l]. cbn [appState].
  unfold Legacy.startGame, Legacy.receive, Legacy.showScreen, Legacy.onError,
    Legacy.updateStats_send, Legacy.updateStats_resume, Legacy.receive.
  exec.
  destruct (length (Legacy.warmupNumbers s) =? 12)%nat; cbn [negb andb orb];
    [|reflexivity].
  destruct r as [|ok p]; cbn [succeedsLegacy]; exec; [reflexivity|].
  destruct (p_history p); exec; cbn [success];
    destruct (p_success p); exec; try reflexivity;
    unfold set_screens; cbn [screens]; rewrite lookup_fmap;
    destruct (screens d !! "gameScreen"); cbn [fmap option_fmap option_map];
    split_ifs; reflexivity.
Qed.

(** X14: [startGame] of the earlier script sets [initialized] on a list of
    12 numbers whenever the body of the answer says success: the HTTP status
    is not consulted, and the flag is set even when the game screen is
    missing from the page and the error message is shown.  The v4 script
    leaves the flag alone on an answer that is not [ok]. *)
Theorem legacy_startGame_ignores_status
    (w : World V4.AppState) (wl : World Legacy.state) (p : payload) (ok : bool)
    (rStats : response) :
  length (V4.warmupNumbers (appState w)) = 12 ->
  length (Legacy.warmupNumbers (appState wl)) = 12 ->
  p_success p = true ->
  Legacy.initialized (appState (run (Legacy.startGame (Responded ok p) rStats) wl)) = true /\
  V4.initialized (appState (run (V4.startGame (Responded false p) rStats) w)) =
    V4.initialized (appState w).
Proof.
  intros Hlen Hlenl Hp. split.
  - rewrite Legacy_startGame_initialized, Hlenl. cbn [Nat.eqb succeedsLegacy andb].
    rewrite Hp. reflexivity.
  - destruct (startGame_transition w (Responded false p) rStats)
      as (_ & _ & _ & H & _).
    rewrite H. cbn [succeeds]. rewrite andb_false_r. reflexivity.
Qed.

(** Twelve numbers and an answer with an error status whose body says
    success. *)
Lemma legacy_startGame_witness :
  Legacy.initialized
    (appState (run (Legacy.startGame (Responded false errorStatusPayload) Rejected)
                   warmedLegacyWorld)) = true /\
  V4.initialized
    (appState (run (V4.startGame (Responded false errorStatusPayload) Rejected)
                   warmedWorld)) = false.
Proof.
  exact (legacy_startGame_ignores_status warmedWorld warmedLegacyWorld
           errorStatusPayload false Rejected eq_refl eq_refl eq_refl).
Defined.

(** *** Reset *)

Lemma V4_executeReset_failed (w : World V4.AppState) r :
  succeeds r = false ->
  appState (run (V4.executeReset r) w) = appState w /\
  doc (run (V4.executeReset r) w) = doc w.
Proof.
  intros Hr. destruct w as [s d a l].
  unfold V4.executeReset, V4.apiRequest, V4.receive.
  destruct r as [|[] p]; cbn [succeeds] in Hr.
  - split_ifs; split; reflexivity.
  - split_ifs; cbn [success] in *; first [split; reflexivity | congruence].
  - split_ifs; split; reflexivity.
Qed.

Lemma V4_executeReset_requests (w : World V4.AppState) r :
  requests (effectsAfter w (run (V4.executeReset r) w)) = [("/api/reset", NoBody)].
Proof.
  destruct w as [s d a l].
  unfold V4.executeReset, V4.apiRequest, V4.receive, V4.showScreen.
  split_ifs; requests_suffix; reflexivity.
Qed.

Lemma V4_executeReset_toasts (w : World V4.AppState) r :
  toasts (effectsAfter w (run (V4.executeReset r) w)) =
    [if succeeds r then ("Sessao encerrada com sucesso", "success")
     else (failureMessage r "Erro ao resetar", "error")].
Proof.
  destruct w as [s d a l].
  unfold V4.executeReset, V4.apiRequest, V4.receive, V4.showScreen.
  destruct r as [|[] p]; cbn [succeeds failureMessage].
  - split_ifs; log_suffix; reflexivity.
  - destruct (p_success p) eqn:Hs;
      split_ifs; cbn [success error] in *; try congruence; log_suffix; reflexivity.
  - split_ifs; log_suffix; reflexivity.
Qed.

Lemma V4_executeReset_failed_effects (w : World V4.AppState) r :
  succeeds r = false ->
  effectsAfter w (run (V4.executeReset r) w) =
    ([Modal false; Loading true; Fetch "/api/reset" NoBody] ++
     match r with
     | Responded true _ => []
     | _ => [ConsoleError "/api/reset"]
     end ++
     [Loading false; Toast (failureMessage r "Erro ao resetar") "error"])%list.
Proof.
  intros Hr. destruct w as [s d a l].
  unfold V4.executeReset, V4.apiRequest, V4.receive.
  destruct r as [|[] p]; cbn [succeeds failureMessage] in *.
  - split_ifs; log_suffix; reflexivity.
  - split_ifs; cbn [success error] in *; try congruence; log_suffix; reflexivity.
  - split_ifs; log_suffix; reflexivity.
Qed.

(** X15: [executeReset] always sends exactly one reset request.  When the
    answer is not a success it leaves the client state, the inputs, the start
    button and the screens as they were, and what it does to the page is
    exactly this: it closes the modal, shows the loading overlay, hides it
    again (after a console error when the request failed or the status is an
    error) and shows one error toast, with the error text of the body for an
    answer that is [ok] and carries one, and the connection message when the
    request failed or the status is an error, whatever the body says. *)
Theorem executeReset_failure (w : World V4.AppState) (r : response) :
  requests (effectsAfter w (run (V4.executeReset r) w)) = [("/api/reset", NoBody)] /\
  (succeeds r = false ->
     appState (run (V4.executeReset r) w) = appState w /\
     doc (run (V4.executeReset r) w) = doc w /\
     effectsAfter w (run (V4.executeReset r) w) =
       ([Modal false; Loading true; Fetch "/api/reset" NoBody] ++
        match r with
        | Responded true _ => []
        | _ => [ConsoleError "/api/reset"]
        end ++
        [Loading false; Toast (failureMessage r "Erro ao resetar") "error"])%list) /\
  (forall p, failureMessage (Responded false p) "Erro ao resetar" =
             "Erro ao conectar com o servidor").
Proof.
  split; [apply V4_executeReset_requests|]. split; [|reflexivity].
  intros Hr. destruct (V4_executeReset_failed w r Hr) as [Hs Hd].
  split; [exact Hs|]. split; [exact Hd|].
  apply V4_executeReset_failed_effects, Hr.
Qed.

(** A reset answered with an error status. *)
Lemma executeReset_failure_witness :
  succeeds (Responded false errorStatusPayload) = false /\
  appState (run (V4.executeReset (Responded false errorStatusPayload)) warmedWorld) =
    appState warmedWorld /\
  effectsAfter warmedWorld
    (run (V4.executeReset (Responded false errorStatusPayload)) warmedWorld) =
    [Modal false; Loading true; Fetch "/api/reset" NoBody;
     ConsoleError "/api/reset"; Loading false;
     Toast "Erro ao conectar com o servidor" "error"].
Proof.
  assert (Hr : succeeds (Responded false errorStatusPayload) = false) by reflexivity.
  destruct (executeReset_failure warmedWorld (Responded false errorStatusPayload))
    as (_ & H & _).
  destruct (H Hr) as (Hs & _ & He).
  split; [exact Hr|]. split; [exact Hs | exact He].
Defined.

(** *** Failure messages *)

Lemma V4_processSpin_failure_toasts (w : World V4.AppState) r :
  let num := JS.trim (numberInput_value (doc w)) in
  num <> "" -> V4.isValidRouletteNumber num = true -> succeeds r = false ->
  toasts (effectsAfter w (run (V4.processSpin r) w)) =
    [(failureMessage r "Erro ao processar numero", "error")] /\
  doc (run (V4.processSpin r) w) = doc w.
Proof.
  intros num Hne Hv Hr. subst num. destruct w as [s d a l]. cbn [doc] in *.
  unfold V4.processSpin, V4.apiRequest, V4.receive.
  exec. rewrite Hv.
  destruct (String.eqb_spec (JS.trim (numberInput_value d)) "") as [E|_]; [contradiction|].
  destruct r as [|[] p]; cbn [succeeds failureMessage] in *.
  - split_ifs; split; try reflexivity; log_suffix; reflexivity.
  - split_ifs; cbn [success error] in *; try congruence;
      split; try reflexivity; log_suffix; reflexivity.
  - split_ifs; split; try reflexivity; log_suffix; reflexivity.
Qed.

Lemma V4_startGame_failure_toasts (w : World V4.AppState) r rStats :
  length (V4.warmupNumbers (appState w)) = 12 -> succeeds r = false ->
  toasts (effectsAfter w (run (V4.startGame r rStats) w)) =
    [(failureMessage r "Erro ao aquecer sistema", "error")].
Proof.
  intros Hlen Hr. destruct w as [s d a l]. cbn [appState] in *.
  unfold V4.startGame, V4.apiRequest, V4.receive.
  exec. rewrite Hlen. cbn [Nat.eqb negb].
  destruct r as [|[] p]; cbn [succeeds failureMessage] in *.
  - split_ifs; log_suffix; reflexivity.
  - split_ifs; cbn [success error] in *; try congruence; log_suffix; reflexivity.
  - split_ifs; log_suffix; reflexivity.
Qed.

Lemma V4_goToWarmup_failure_toasts parseFloat (w : World V4.AppState) r :
  SFltb positiveZero (parseFloat (bankroll_value (doc w))) = true ->
  hasActiveStrategy (collectStrategies (strategy_checkboxes (doc w))) = true ->
  succeeds r = false ->
  toasts (effectsAfter w (run (V4.goToWarmup parseFloat r) w)) =
    [(failureMessage r "Erro ao inicializar", "error")].
Proof.
  intros Hb Hs Hr. destruct w as [s d a l]. cbn [doc] in *.
  unfold V4.goToWarmup, V4.apiRequest, V4.receive.
  exec. rewrite not_positive, Hb, Hs. exec.
  destruct r as [|[] p]; cbn [succeeds failureMessage] in *.
  - split_ifs; log_suffix; reflexivity.
  - split_ifs; cbn [success error] in *; try congruence; log_suffix; reflexivity.
  - split_ifs; log_suffix; reflexivity.
Qed.

(** X16: when an initialize, warmup or spin call of the v4 script passed the
    local checks and the answer is not a success, exactly one toast is
    shown, of type error: the error text of the body (or the handler's
    default when it is missing or empty) if the answer is [ok], and the
    connection message if the request failed or the status is an error,
    whatever the body says; a failed spin keeps the typed number. *)
Theorem failed_calls_show_one_error
    (parseFloat : string -> spec_float) (w : World V4.AppState) (r rStats : response) :
  succeeds r = false ->
  (SFltb positiveZero (parseFloat (bankroll_value (doc w))) = true ->
   hasActiveStrategy (collectStrategies (strategy_checkboxes (doc w))) = true ->
     toasts (effectsAfter w (run (V4.goToWarmup parseFloat r) w)) =
       [(failureMessage r "Erro ao inicializar", "error")]) /\
  (length (V4.warmupNumbers (appState w)) = 12 ->
     toasts (effectsAfter w (run (V4.startGame r rStats) w)) =
       [(failureMessage r "Erro ao aquecer sistema", "error")]) /\
  (JS.trim (numberInput_value (doc w)) <> "" ->
   V4.isValidRouletteNumber (JS.trim (numberInput_value (doc w))) = true ->
     toasts (effectsAfter w (run (V4.processSpin r) w)) =
       [(failureMessage r "Erro ao processar numero", "error")] /\
     numberInput_value (doc (run (V4.processSpin r) w)) = numberInput_value (doc w)) /\
  (forall p dflt, failureMessage (Responded false p) dflt =
                  "Erro ao conectar com o servidor") /\
  (forall p dflt text, p_error p = Some text -> text <> "" ->
     failureMessage (Responded true p) dflt = text).
Proof.
  intros Hr. split; [|split; [|split; [|split]]].
  - intros Hb Hs. apply V4_goToWarmup_failure_toasts; assumption.
  - intros Hlen. apply V4_startGame_failure_toasts; assumption.
  - intros Hne Hv.
    destruct (V4_processSpin_failure_toasts w r Hne Hv Hr) as [Ht Hd].
    split; [exact Ht | rewrite Hd; reflexivity].
  - reflexivity.
  - intros p dflt text Hp Hne. cbn [failureMessage]. rewrite Hp. cbn [orElse].
    destruct (String.eqb_spec text "") as [E|_]; [contradiction | reflexivity].
Qed.

(** A spin whose answer is [ok] and says failure with the text "falhou",
    and the same body under an error status. *)
Lemma failed_calls_witness :
  toasts (effectsAfter spinWorld
            (run (V4.processSpin (Responded true (mkPayload false (Some "falhou") None)))
                 spinWorld)) = [("falhou", "error")] /\
  toasts (effectsAfter spinWorld
            (run (V4.processSpin (Responded false (mkPayload false (Some "falhou") None)))
                 spinWorld)) = [("Erro ao conectar com o servidor", "error")].
Proof.
  destruct (failed_calls_show_one_error parseFloat_integers spinWorld
              (Responded true (mkPayload false (Some "falhou") None)) Rejected eq_refl)
    as (_ & _ & H1 & _).
  destruct (failed_calls_show_one_error parseFloat_integers spinWorld
              (Responded false (mkPayload false (Some "falhou") None)) Rejected eq_refl)
    as (_ & _ & H2 & _).
  assert (Hne : JS.trim (numberInput_value (doc spinWorld)) <> "")
    by (intros E; vm_compute in E; discriminate).
  assert (Hv : V4.isValidRouletteNumber (JS.trim (numberInput_value (doc spinWorld))) = true)
    by reflexivity.
  split; [exact (proj1 (H1 Hne Hv)) | exact (proj1 (H2 Hne Hv))].
Defined.

(** *** A success without a history *)

(** X17: after a spin whose answer is a success, the number input is
    cleared exactly when the body carries a history array; without one the
    display update fails after the bankroll figures, the typed number stays
    and the connection message is shown although the server accepted the
    spin. *)
Theorem spin_success_needs_history (w : World V4.AppState) (p : payload) :
  let num := JS.trim (numberInput_value (doc w)) in
  let w' := run (V4.processSpin (Responded true p)) w in
  num <> "" -> V4.isValidRouletteNumber num = true -> p_success p = true ->
  match p_history p with
  | Some h =>
      numberInput_value (doc w') = "" /\ toasts (effectsAfter w w') = []
  | None =>
      numberInput_value (doc w') = numberInput_value (doc w) /\
      toasts (effectsAfter w w') = [("Erro ao conectar com o servidor", "error")]
  end.
Proof.
  intros num w' Hne Hv Hs. subst num w'. destruct w as [s d a l]. cbn [doc] in *.
  unfold V4.processSpin, V4.apiRequest, V4.receive, V4.updateGameDisplay,
    V4.updateHistory, V4.updateBankrollDisplay, V4.updateLastNumber,
    V4.updateAction, V4.updateSignals, V4.updateHotCold.
  exec. rewrite Hv.
  destruct (String.eqb_spec (JS.trim (numberInput_value d)) "") as [E|_]; [contradiction|].
  destruct (p_history p); exec; cbn [success history]; rewrite Hs; exec.
  - split_ifs; (split; [reflexivity | log_suffix; reflexivity]).
  - split; [reflexivity | log_suffix; reflexivity].
Qed.

(** The number 17 answered with a success that has no history. *)
Lemma spin_success_witness :
  numberInput_value
    (doc (run (V4.processSpin (Responded true (mkPayload true None None))) spinWorld)) = "17" /\
  numberInput_value (doc (run (V4.processSpin okResponse) spinWorld)) = "".
Proof.
  assert (Hne : JS.trim (numberInput_value (doc spinWorld)) <> "")
    by (intros E; vm_compute in E; discriminate).
  assert (Hv : V4.isValidRouletteNumber (JS.trim (numberInput_value (doc spinWorld))) = true)
    by reflexivity.
  split.
  - exact (proj1 (spin_success_needs_history spinWorld (mkPayload true None None)
                    Hne Hv eq_refl)).
  - exact (proj1 (spin_success_needs_history spinWorld
                    (mkPayload true None (Some ["7"; "8"; "9"])) Hne Hv eq_refl)).
Defined.

(** *** The loading overlay *)

Ltac unfold_handlers :=
  unfold V4.goToWarmup, V4.addWarmupNumber, V4.clearWarmup, V4.removeWarmupNumber,
    V4.startGame, V4.processSpin, V4.executeReset, V4.updateStats,
    V4.apiRequest, V4.receive, V4.showScreen, V4.updateWarmupDisplay,
    V4.updateGameDisplay, V4.updateHistory, V4.updateStats_send,
    V4.updateStats_resume, V4.updateBankrollDisplay, V4.updateLastNumber,
    V4.updateAction, V4.updateSignals, V4.updateHotCold,
    Legacy.goToWarmup, Legacy.addWarmupNumber, Legacy.startGame,
    Legacy.processSpin, Legacy.receive, Legacy.showScreen, Legacy.onError,
    Legacy.updateWarmupDisplay, Legacy.updateGameDisplay, Legacy.updateHistory,
    Legacy.updateStats_send, Legacy.updateStats_resume, Legacy.updateAction,
    Legacy.updateSignals, Legacy.updateHotCold.

Ltac overlay_case :=
  match goal with
  | |- context [run _ ?w] => destruct w as [s d a l]
  end;
  do 3 unfold_handlers;
  split_ifs; log_suffix; reflexivity.

(** X18: no handler of either script leaves the loading overlay active:
    started with the overlay inactive, each call ends with it inactive,
    whatever the inputs and the answers. *)
Theorem overlay_never_left_active
    (parseFloat : string -> spec_float) (index : Z) (r rStats : response)
    (w : World V4.AppState) (wl : World Legacy.state) :
  overlayAfter false (effectsAfter w (run (V4.goToWarmup parseFloat r) w)) = false /\
  overlayAfter false (effectsAfter w (run V4.addWarmupNumber w)) = false /\
  overlayAfter false (effectsAfter w (run V4.clearWarmup w)) = false /\
  overlayAfter false (effectsAfter w (run (V4.removeWarmupNumber index) w)) = false /\
  overlayAfter false (effectsAfter w (run (V4.startGame r rStats) w)) = false /\
  overlayAfter false (effectsAfter w (run (V4.processSpin r) w)) = false /\
  overlayAfter false (effectsAfter w (run (V4.executeReset r) w)) = false /\
  overlayAfter false (effectsAfter wl (run (Legacy.goToWarmup parseFloat r) wl)) = false /\
  overlayAfter false (effectsAfter wl (run Legacy.addWarmupNumber wl)) = false /\
  overlayAfter false (effectsAfter wl (run (Legacy.startGame r rStats) wl)) = false /\
  overlayAfter false (effectsAfter wl (run (Legacy.processSpin r) wl)) = false.
Proof.
  repeat split; overlay_case.
Qed.

(** *** Screens *)

Lemma activate_lookup (m : gmap string bool) (id k : string) :
  (match ((fun _ => false) <$> m) !! id with
   | Some _ => <[id := true]> ((fun _ => false) <$> m)
   | None => (fun _ => false) <$> m
   end) !! k = (fun _ => bool_decide (k = id)) <$> (m !! k).
Proof.
  rewrite lookup_fmap.
  destruct (m !! id) as [b|] eqn:E; cbn [fmap option_fmap option_map].
  - destruct (decide (k = id)) as [->|Hne].
    + rewrite lookup_insert_eq, E. cbn [fmap option_fmap option_map].
      rewrite bool_decide_eq_true_2; reflexivity.
    + rewrite lookup_insert_ne by congruence. rewrite lookup_fmap.
      destruct (m !! k); cbn [fmap option_fmap option_map];
        [rewrite bool_decide_eq_false_2 by exact Hne|]; reflexivity.
  - rewrite lookup_fmap.
    destruct (m !! k) as [b|] eqn:Ek; cbn [fmap option_fmap option_map];
      [|reflexivity].
    rewrite bool_decide_eq_false_2; [reflexivity | congruence].
Qed.

Lemma showScreen_lookup
    (w : World V4.AppState) (wl : World Legacy.state) (id k : string) :
  screens (doc (run (V4.showScreen id) w)) !! k =
    (fun _ => bool_decide (k = id)) <$> (screens (doc w) !! k) /\
  screens (doc (run (Legacy.showScreen id) wl)) !! k =
    (fun _ => bool_decide (k = id)) <$> (screens (doc wl) !! k) /\
  V4.currentScreen (appState (run (V4.showScreen id) w)) =
    (match screens (doc w) !! id with
     | Some _ => replaceFirst "Screen" "" id
     | None => V4.currentScreen (appState w)
     end) /\
  fst (Legacy.showScreen id wl) = bool_decide (is_Some (screens (doc wl) !! id)).
Proof.
  destruct w as [s d a l], wl as [sl dl al ll]. cbn [doc appState].
  split; [|split; [|split]].
  - rewrite <- (activate_lookup (screens d) id k).
    unfold V4.showScreen. exec. unfold set_screens; cbn [screens].
    destruct (((fun _ => false) <$> screens d) !! id); reflexivity.
  - rewrite <- (activate_lookup (screens dl) id k).
    unfold Legacy.showScreen. exec. unfold set_screens; cbn [screens].
    destruct (((fun _ => false) <$> screens dl) !! id); reflexivity.
  - unfold V4.showScreen. exec. unfold set_screens; cbn [screens].
    rewrite lookup_fmap. destruct (screens d !! id); reflexivity.
  - unfold Legacy.showScreen. exec. unfold set_screens; cbn [screens].
    rewrite lookup_fmap.
    destruct (screens dl !! id) as [b|]; cbn [fmap option_fmap option_map fst].
    + rewrite bool_decide_eq_true_2; [reflexivity | eexists; reflexivity].
    + rewrite bool_decide_eq_false_2; [reflexivity | intros [x Hx]; discriminate].
Qed.

(** X19: for each of the three ids the handlers pass to [showScreen]
    ("setupScreen", "warmupScreen", "gameScreen"), in either script, the
    page has the same screens after the call and a screen is active exactly
    when it is the target; when the target is on the page the v4 script
    records its name without "Screen" ("setup", "warmup", "game"); when it
    is missing no screen is left active, the v4 script keeps its recorded
    name and the earlier script throws. *)
Theorem showScreen_activates_only_target
    (w : World V4.AppState) (wl : World Legacy.state) (id k : string) :
  In id ["setupScreen"; "warmupScreen"; "gameScreen"] ->
  In (replaceFirst "Screen" "" id) ["setup"; "warmup"; "game"] /\
  screens (doc (run (V4.showScreen id) w)) !! k =
    (fun _ => bool_decide (k = id)) <$> (screens (doc w) !! k) /\
  screens (doc (run (Legacy.showScreen id) wl)) !! k =
    (fun _ => bool_decide (k = id)) <$> (screens (doc wl) !! k) /\
  V4.currentScreen (appState (run (V4.showScreen id) w)) =
    (match screens (doc w) !! id with
     | Some _ => replaceFirst "Screen" "" id
     | None => V4.currentScreen (appState w)
     end) /\
  fst (Legacy.showScreen id wl) = bool_decide (is_Some (screens (doc wl) !! id)).
Proof.
  intros Hid. split; [|apply showScreen_lookup].
  destruct Hid as [<-|[<-|[<-|[]]]];
    [left | right; left | right; right; left]; reflexivity.
Qed.

(** The game screen shown on the sample page. *)
Lemma showScreen_witness :
  screens (doc (run (V4.showScreen "gameScreen") sampleWorld)) !! "setupScreen" = Some false /\
  screens (doc (run (V4.showScreen "gameScreen") sampleWorld)) !! "gameScreen" = Some true /\
  V4.currentScreen (appState (run (V4.showScreen "gameScreen") sampleWorld)) = "game".
Proof.
  assert (Hid : In "gameScreen" ["setupScreen"; "warmupScreen"; "gameScreen"])
    by (right; right; left; reflexivity).
  destruct (showScreen_activates_only_target sampleWorld sampleLegacyWorld
              "gameScreen" "setupScreen" Hid) as (_ & H1 & _ & H3 & _).
  destruct (showScreen_activates_only_target sampleWorld sampleLegacyWorld
              "gameScreen" "gameScreen" Hid) as (_ & H2 & _).
  split; [exact H1|]. split; [exact H2 | exact H3].
Defined.

(** *** The warmup list of the earlier script *)

Lemma Legacy_addWarmupNumber_numbers (w : World Legacy.state) :
  let num := JS.trim (warmupInput_value (doc w)) in
  let old := Legacy.warmupNumbers (appState w) in
  Legacy.warmupNumbers (appState (run Legacy.addWarmupNumber w)) = old \/
  (Legacy.inlineValid num = true /\ length old < 12 /\
   Legacy.warmupNumbers (appState (run Legacy.addWarmupNumber w)) = (old ++ [num])%list).
Proof.
  intros num old. subst num old. destruct w as [s d a l]. cbn [doc appState].
  unfold Legacy.addWarmupNumber, Legacy.updateWarmupDisplay.
  split_ifs; try (left; reflexivity).
  all: right; repeat split;
    try (match goal with H : negb _ = false |- _ => apply negb_false_iff in H; exact H end);
    try (match goal with H : (12 <=? _)%nat = false |- _ => apply Nat.leb_gt in H; exact H end).
Qed.

Lemma legacyAdds_cons t typed (w : World Legacy.state) :
  run (legacyAdds (t :: typed)) w =
    run (legacyAdds typed)
      (run Legacy.addWarmupNumber
         (mkWorld (appState w) (set_warmupInput t (doc w)) (arrays w) (log w))).
Proof.
  destruct w as [s d a l]. cbn [legacyAdds appState doc arrays log].
  unfold run at 1. unfold mbind, M_bind, getDoc, setDoc. cbn [fst snd doc appState arrays log].
  unfold run.
  destruct (Legacy.addWarmupNumber _) as [[] w1]. reflexivity.
Qed.

(** X20: in the earlier script, which has no way to remove a number, any
    sequence of submissions only extends the warmup list, by tokens that pass
    the inline validation, and never beyond 12 elements. *)
Theorem legacy_warmup_list_only_grows (typed : list string) (w : World Legacy.state) :
  let old := Legacy.warmupNumbers (appState w) in
  let new := Legacy.warmupNumbers (appState (run (legacyAdds typed) w)) in
  exists added,
    new = (old ++ added)%list /\
    Forall (fun tok => Legacy.inlineValid tok = true) added /\
    (length old <= 12 -> length new <= 12).
Proof.
  revert w. induction typed as [|t typed IH]; intros w old new.
  - exists []. subst new old. cbn. rewrite app_nil_r. repeat split; [constructor | auto].
  - subst new. rewrite legacyAdds_cons.
    set (w0 := mkWorld (appState w) (set_warmupInput t (doc w)) (arrays w) (log w)).
    destruct (IH (run Legacy.addWarmupNumber w0)) as (added & Hnew & Hall & Hlen).
    destruct (Legacy_addWarmupNumber_numbers w0) as [E|(Hv & Hlt & E)];
      rewrite E in Hnew, Hlen; cbn [appState doc] in *.
    + exists added. repeat split; assumption.
    + exists (JS.trim t :: added).
      split; [rewrite Hnew, <- app_assoc; reflexivity|].
      split; [constructor; assumption|].
      intros _. apply Hlen. rewrite length_app. cbn [length]. lia.
Qed.

(** Three submissions from the fresh page, one of them invalid. *)
Lemma legacy_warmup_list_witness :
  length (Legacy.warmupNumbers (appState sampleLegacyWorld)) <= 12 /\
  length (Legacy.warmupNumbers
            (appState (run (legacyAdds ["5"; "abc"; " 7 "]) sampleLegacyWorld))) <= 12.
Proof.
  assert (H : length (Legacy.warmupNumbers (appState sampleLegacyWorld)) <= 12)
    by (cbn; lia).
  destruct (legacy_warmup_list_only_grows ["5"; "abc"; " 7 "] sampleLegacyWorld)
    as (added & _ & _ & Hlen).
  split; [exact H | exact (Hlen H)].
Defined.

(** *** Warmup editing is local *)

Lemma warmupStep_sends_nothing c (w : World V4.AppState) :
  requests (log (run (warmupStep c) w)) = requests (log w).
Proof.
  destruct w as [s d a l].
  destruct c as [typed|index|]; cbn [warmupStep];
    unfold V4.addWarmupNumber, V4.removeWarmupNumber, V4.clearWarmup,
      V4.updateWarmupDisplay;
    split_ifs; cbn [log]; unfold requests; rewrite <- ?app_assoc, ?omap_app;
    cbn [omap list_omap request_of app]; rewrite ?app_nil_r; reflexivity.
Qed.

(** X21: entering, removing and clearing warmup numbers never contacts the
    server: after any sequence of such calls the requests in the log are the
    ones that were there before. *)
Theorem warmup_editing_sends_nothing (cs : list warmupCall) (w : World V4.AppState) :
  requests (log (run (warmupSteps cs) w)) = requests (log w).
Proof.
  revert w. induction cs as [|c cs IH]; intros w; [reflexivity|].
  cbn [warmupSteps]. rewrite run_then, IH. apply warmupStep_sends_nothing.
Qed.

(** *** Statistics *)

Ltac stats_case :=
  do 3 unfold_handlers;
  split_ifs; cbn [succeeds succeedsLegacy success] in *;
  (eexists; split; [log_suffix; reflexivity|]);
  repeat split; intros; try congruence; reflexivity.

(** X22: [updateStats], in both scripts, first sends one statistics request;
    on a successful answer all it does besides is to write statistics fields
    of the page (current bankroll, profit and loss, spin count, hot and cold
    numbers, history), and on any other answer it writes console errors at
    most; in no case does it show a toast, toggle the overlay or the modal,
    move the focus, or change the client state, the inputs, the start button
    or the screens. *)
Theorem updateStats_is_silent
    (w : World V4.AppState) (wl : World Legacy.state) (r : response) :
  let w' := run (V4.updateStats r) w in
  let wl' := run (Legacy.updateStats_send;; Legacy.updateStats_resume r) wl in
  (exists rest,
     effectsAfter w w' = Fetch "/api/stats" NoBody :: rest /\
     (succeeds r = true -> forallb statsWrite rest = true) /\
     (succeeds r = false -> forallb consoleError rest = true) /\
     appState w' = appState w /\ doc w' = doc w) /\
  (exists rest,
     effectsAfter wl wl' = Fetch "/api/stats" NoBody :: rest /\
     (succeedsLegacy r = true -> forallb statsWrite rest = true) /\
     (succeedsLegacy r = false -> forallb consoleError rest = true) /\
     appState wl' = appState wl /\ doc wl' = doc wl).
Proof.
  intros w' wl'. subst w' wl'. destruct w as [s d a l], wl as [sl dl al ll].
  split.
  - destruct r as [|[] p]; stats_case.
  - destruct r as [|ok p]; stats_case.
Qed.

(** The statistics request answered with a success, and rejected. *)
Lemma updateStats_witness :
  succeeds okResponse = true /\
  effectsAfter sampleWorld (run (V4.updateStats okResponse) sampleWorld) =
    [Fetch "/api/stats" NoBody; Display "currentBankroll"; Display "profitLoss";
     Display "totalSpins"; Display "hotNumbers"; Display "coldNumbers";
     Render "historyContent" [("red", "9"); ("black", "8"); ("red", "7")]] /\
  succeeds Rejected = false /\
  appState (run (V4.updateStats Rejected) sampleWorld) = appState sampleWorld.
Proof.
  destruct (updateStats_is_silent sampleWorld sampleLegacyWorld okResponse)
    as ((rest & Heff & Hok & _) & _).
  destruct (updateStats_is_silent sampleWorld sampleLegacyWorld Rejected)
    as ((rest' & _ & _ & Hbad & Hstate & _) & _).
  assert (H1 : succeeds okResponse = true) by reflexivity.
  assert (H2 : succeeds Rejected = false) by reflexivity.
  pose proof (Hok H1) as _. pose proof (Hbad H2) as _.
  split; [exact H1|]. split; [reflexivity|]. split; [exact H2 | exact Hstate].
Defined.

(** *** The profit-and-loss field *)

Lemma abs_opp (x : spec_float) : SFabs (SFopp x) = SFabs x.
Proof. destruct x; reflexivity. Qed.

Lemma ltb_opp (x : spec_float) :
  SFltb positiveZero (SFopp x) = SFltb x positiveZero /\
  SFltb (SFopp x) positiveZero = SFltb positiveZero x.
Proof. destruct x as [[]|[]| |[] m e]; split; reflexivity. Qed.

Lemma not_both_signs (x : spec_float) :
  SFltb positiveZero x = true -> SFltb x positiveZero = false.
Proof. destruct x as [[]|[]| |[] m e]; cbn; congruence. Qed.

(** X23: the profit-and-loss field shows the formatted absolute value with
    "+" and the class [positive] for a profit, with "-" and the class
    [negative] for a loss, and bare for zero and NaN; a profit and the loss
    of the same size show the same amount with opposite signs. *)
Theorem profit_and_loss_mirror
    (formatCurrency : spec_float -> string) (profitLoss : spec_float) :
  let amount := formatCurrency (SFabs profitLoss) in
  (SFltb positiveZero profitLoss = true ->
     profitLossField formatCurrency profitLoss = ("+" ++ amount, "stat-value positive") /\
     profitLossField formatCurrency (SFopp profitLoss) =
       ("-" ++ amount, "stat-value negative")) /\
  (SFltb profitLoss positiveZero = true ->
     profitLossField formatCurrency profitLoss = ("-" ++ amount, "stat-value negative") /\
     profitLossField formatCurrency (SFopp profitLoss) =
       ("+" ++ amount, "stat-value positive")) /\
  (falsy profitLoss = true ->
     profitLossField formatCurrency profitLoss = (amount, "stat-value")).
Proof.
  intros amount. subst amount.
  destruct (ltb_opp profitLoss) as [Hpos Hneg].
  unfold profitLossField. rewrite abs_opp, Hpos, Hneg.
  split; [|split].
  - intros H. rewrite H, (not_both_signs _ H). split; reflexivity.
  - intros H. rewrite H.
    destruct (SFltb positiveZero profitLoss) eqn:E;
      [rewrite (not_both_signs _ E) in H; discriminate|].
    split; reflexivity.
  - intros H. destruct profitLoss as [[]|[]| |[] m e]; try discriminate; reflexivity.
Qed.

(** A profit of 100 and a loss of 100. *)
Lemma profit_and_loss_witness :
  profitLossField sampleFormat (parseFloat_integers "100") =
    ("+R$ 100,00", "stat-value positive") /\
  profitLossField sampleFormat (SFopp (parseFloat_integers "100")) =
    ("-R$ 100,00", "stat-value negative").
Proof.
  destruct (profit_and_loss_mirror sampleFormat (parseFloat_integers "100"))
    as (H & _).
  exact (H eq_refl).
Defined.

(** *** The validation on integer numerals *)

Ltac each_ascii c :=
  destruct c as [[] [] [] [] [] [] [] []].

Lemma digit_radixDigit c :
  isDigit c = true ->
  JS.radixDigit 10 c = Some (Z.of_N (N_of_ascii c) - 48)%Z.
Proof. each_ascii c; intros H; vm_compute in H; try discriminate H; reflexivity. Qed.

Lemma nondigit_radixDigit c : isDigit c = false -> JS.radixDigit 10 c = None.
Proof. each_ascii c; intros H; vm_compute in H; try discriminate H; reflexivity. Qed.

Lemma parseDigits_digitsValue s a v :
  digitsValue a s = Some v -> JS.parseDigits 10 (Some a) s = Some v.
Proof.
  revert a. induction s as [|c s IH]; intros a H; cbn [digitsValue JS.parseDigits] in *.
  - exact H.
  - destruct (isDigit c) eqn:Hd; [|discriminate].
    rewrite (digit_radixDigit c Hd). cbn [default from_option id]. apply IH, H.
Qed.

(** What [parseInt] does with a string that starts with a digit (followed by
    a digit or nothing when that digit is 0), bare or after a sign. *)
Lemma parseInt_first_digit c r :
  isDigit c = true ->
  match r with String c2 _ => isDigit c2 = true | EmptyString => True end ->
  let rest := JS.parseDigits 10 (Some (10 * 0 + (Z.of_N (N_of_ascii c) - 48))%Z) r in
  JS.parseInt (String c r) =
    match rest with Some m => Some (1 * m)%Z | None => None end /\
  JS.parseInt (String "+" (String c r)) =
    match rest with Some m => Some (1 * m)%Z | None => None end /\
  JS.parseInt (String "-" (String c r)) =
    match rest with Some m => Some (-1 * m)%Z | None => None end.
Proof.
  intros Hc Hr rest. subst rest.
  each_ascii c; vm_compute in Hc; try discriminate Hc; try (repeat split; reflexivity).
  destruct r as [|c2 r2]; [repeat split; reflexivity|].
  each_ascii c2; vm_compute in Hr; try discriminate Hr; repeat split; reflexivity.
Qed.

Lemma digitsValue_head c r v :
  digitsValue 0 (String c r) = Some v ->
  isDigit c = true /\
  match r with String c2 _ => isDigit c2 = true | EmptyString => True end /\
  JS.parseDigits 10 (Some (10 * 0 + (Z.of_N (N_of_ascii c) - 48))%Z) r = Some v.
Proof.
  cbn [digitsValue]. destruct (isDigit c) eqn:Hc; [|discriminate]. intros H.
  split; [reflexivity|]. split; [|apply parseDigits_digitsValue, H].
  destruct r as [|c2 r2]; [exact I|]. cbn [digitsValue] in H.
  destruct (isDigit c2); [reflexivity | discriminate].
Qed.

Lemma parseInt_integerNumeral tok n :
  integerNumeral tok = Some n -> JS.parseInt tok = Some n.
Proof.
  destruct tok as [|c r]; [discriminate|].
  assert (Hplain : digitsValue 0 (String c r) = Some n -> JS.parseInt (String c r) = Some n).
  { intros H. destruct (digitsValue_head c r n H) as (Hc & Hr & Hp).
    destruct (parseInt_first_digit c r Hc Hr) as (E & _ & _).
    rewrite E, Hp. f_equal; lia. }
  destruct (Ascii.eqb_spec c "-") as [->|Hminus].
  { destruct r as [|c2 r2]; [discriminate|]. cbn [integerNumeral].
    destruct (digitsValue 0 (String c2 r2)) as [v|] eqn:Hv; [|discriminate].
    cbn [option_map]. intros [= <-].
    destruct (digitsValue_head c2 r2 v Hv) as (Hc & Hr & Hp).
    destruct (parseInt_first_digit c2 r2 Hc Hr) as (_ & _ & E).
    rewrite E, Hp. f_equal; lia. }
  destruct (Ascii.eqb_spec c "+") as [->|Hplus].
  { destruct r as [|c2 r2]; [discriminate|]. cbn [integerNumeral]. intros Hv.
    destruct (digitsValue_head c2 r2 n Hv) as (Hc & Hr & Hp).
    destruct (parseInt_first_digit c2 r2 Hc Hr) as (_ & E & _).
    rewrite E, Hp. f_equal; lia. }
  intros H. apply Hplain. revert H. clear Hplain.
  each_ascii c; try (exfalso; apply Hminus; reflexivity);
    try (exfalso; apply Hplus; reflexivity); intros H; exact H.
Qed.

Lemma trimStart_idem s : JS.trimStart (JS.trimStart s) = JS.trimStart s.
Proof.
  induction s as [|c s IH]; [reflexivity|]. cbn [JS.trimStart].
  destruct (JS.isWhiteSpace c) eqn:E; [exact IH|]. cbn [JS.trimStart]. rewrite E. reflexivity.
Qed.

Lemma parseInt_trimStart s : JS.parseInt (JS.trimStart s) = JS.parseInt s.
Proof. unfold JS.parseInt. rewrite trimStart_idem. reflexivity. Qed.

Lemma trimStart_digitFree s : digitFree s -> digitFree (JS.trimStart s).
Proof.
  unfold digitFree. induction s as [|c s IH]; intros H; [exact H|].
  cbn [JS.trimStart]. destruct (JS.isWhiteSpace c); [|exact H].
  apply IH. cbn [list_ascii_of_string] in H. inversion H; assumption.
Qed.

Lemma trimStart_head s :
  match JS.trimStart s with
  | String c _ => JS.isWhiteSpace c = false
  | EmptyString => True
  end.
Proof.
  induction s as [|c s IH]; [exact I|]. cbn [JS.trimStart].
  destruct (JS.isWhiteSpace c) eqn:E; [exact IH | exact E].
Qed.

Lemma parseInt_digitFree s : digitFree s -> JS.parseInt s = None.
Proof.
  intros H. rewrite <- parseInt_trimStart.
  pose proof (trimStart_digitFree s H) as Hfree.
  pose proof (trimStart_head s) as Hhead.
  destruct (JS.trimStart s) as [|c r]; [reflexivity|].
  unfold digitFree in Hfree. cbn [list_ascii_of_string] in Hfree.
  inversion Hfree as [|? ? Hc Hrest]; subst.
  assert (Hr : match r with
               | String c2 _ => isDigit c2 = false
               | EmptyString => True
               end).
  { destruct r as [|c2 r2]; [exact I|]. cbn [list_ascii_of_string] in Hrest.
    inversion Hrest; assumption. }
  clear Hfree Hrest H.
  each_ascii c; vm_compute in Hc; try discriminate Hc;
    vm_compute in Hhead; try discriminate Hhead; try reflexivity.
  all: destruct r as [|c2 r2]; [reflexivity|];
    each_ascii c2; vm_compute in Hr; try discriminate Hr; reflexivity.
Qed.

(** C1, as amended: in both scripts, for a token that is an integer numeral
    (an optional sign and decimal digits only) the validation of the warmup
    and spin inputs accepts it exactly when its value is between 0 and 36;
    "00" is such a numeral and is accepted, no roulette type entering the
    test; a token without any decimal digit is rejected.  Tokens that carry
    other characters after a numeral are left aside. *)
Theorem validation_on_integer_numerals :
  (forall token n, integerNumeral token = Some n ->
     (V4.isValidRouletteNumber token = true <-> (0 <= n <= 36)%Z) /\
     (Legacy.inlineValid token = true <-> (0 <= n <= 36)%Z)) /\
  (integerNumeral "00" = Some 0%Z /\
   V4.isValidRouletteNumber "00" = true /\ Legacy.inlineValid "00" = true) /\
  (forall token, digitFree token ->
     V4.isValidRouletteNumber token = false /\ Legacy.inlineValid token = false).
Proof.
  split; [|split].
  - intros token n Hn. apply parseInt_integerNumeral in Hn.
    assert (Hr : inRange (JS.parseInt token) <-> (0 <= n <= 36)%Z).
    { rewrite Hn. unfold inRange. split.
      - intros (v & [= <-] & Hv). exact Hv.
      - intros Hv. exists n. split; [reflexivity | exact Hv]. }
    split.
    + rewrite isValidRouletteNumber_inRange, <- Hr. split; [|auto].
      intros [->|H]; [apply parseInt_double_zero | exact H].
    + rewrite inlineValid_inRange. exact Hr.
  - repeat split; reflexivity.
  - intros token Hfree. pose proof (parseInt_digitFree token Hfree) as Hp.
    assert (Hl : Legacy.inlineValid token = false).
    { unfold Legacy.inlineValid. rewrite Hp. reflexivity. }
    split; [|exact Hl].
    unfold V4.isValidRouletteNumber. rewrite Hp.
    destruct (String.eqb_spec token "00") as [->|_]; [discriminate Hp | reflexivity].
Qed.

(** The numerals "00", "36", "37" and "-1", and the token "abc". *)
Lemma validation_on_integer_numerals_witness :
  integerNumeral "36" = Some 36%Z /\ V4.isValidRouletteNumber "36" = true /\
  integerNumeral "37" = Some 37%Z /\ V4.isValidRouletteNumber "37" <> true /\
  integerNumeral "-1" = Some (-1)%Z /\ Legacy.inlineValid "-1" <> true /\
  digitFree "abc" /\ V4.isValidRouletteNumber "abc" = false.
Proof.
  destruct validation_on_integer_numerals as (Hnum & _ & Hfree).
  assert (H36 : integerNumeral "36" = Some 36%Z) by reflexivity.
  assert (H37 : integerNumeral "37" = Some 37%Z) by reflexivity.
  assert (Hm1 : integerNumeral "-1" = Some (-1)%Z) by reflexivity.
  assert (Habc : digitFree "abc") by (repeat constructor).
  split; [exact H36|]. split; [apply (Hnum "36" 36%Z H36); lia|].
  split; [exact H37|]. split; [intros H; apply (Hnum "37" 37%Z H37) in H; lia|].
  split; [exact Hm1|]. split; [intros H; apply (Hnum "-1" (-1)%Z Hm1) in H; lia|].
  split; [exact Habc | exact (proj1 (Hfree "abc" Habc))].
Defined.
